(** * foodie-server: the router of [src/routes/gemini.js]

    A shallow embedding of the three request handlers of the router
    ([POST /analyze], [POST /save], [GET /getFoodLogs]) and of the pure
    pieces they are built from (persona choice, fallback detection, the
    totals fold), followed by the properties of the specification that
    concern them.

    JavaScript numbers are IEEE 754 binary64 values.  They are modelled by
    the specification floats of the standard library ([spec_float] with
    precision 53 and maximal exponent 1024), so that [+] and [*] below
    round exactly as the interpreter does. *)

From Stdlib Require Import ZArith List String Ascii Bool Lia Permutation.
From Stdlib Require Import Floats.SpecFloat.
Import ListNotations.

Local Open Scope Z_scope.

Set Warnings "-register-all".

(* ================================================================== *)
(** ** JavaScript numbers *)
(* ================================================================== *)

Module Number.

Definition prec : Z := 53.
Definition emax : Z := 1024.

Definition number : Type := spec_float.

(** The literal [0]. *)
Definition zero : number := S754_zero false.

(** [x + y] and [x * y] on numbers. *)
Definition add (x y : number) : number := SFadd prec emax x y.
Definition mul (x y : number) : number := SFmul prec emax x y.
Definition div (x y : number) : number := SFdiv prec emax x y.

(** The number an integer literal denotes (rounded to nearest, ties to
    even, when the integer has more than 53 significant bits). *)
Definition of_Z (z : Z) : number := binary_normalize prec emax z 0 false.

(** Values that are representable: canonical mantissa and exponent. *)
Definition valid (x : number) : bool := valid_binary prec emax x.

Definition is_nan (x : number) : bool :=
  match x with S754_nan => true | _ => false end.

(** ToBoolean on a number: [0], [-0] and [NaN] are falsy. *)
Definition truthy (x : number) : bool :=
  match x with
  | S754_zero _ | S754_nan => false
  | _ => true
  end.

Definition ltb (x y : number) : bool := SFltb x y.
Definition leb (x y : number) : bool := SFleb x y.

(** [Math.floor].  A finite number [m * 2^e] with [e < 0] is mapped to
    the integer [floor (m * 2^e)], which is the arithmetic right shift
    of the signed mantissa; numbers with [e >= 0] are integers
    already. *)
Definition floor (x : number) : number :=
  match x with
  | S754_finite s m e =>
      if 0 <=? e then x
      else of_Z (Z.shiftl (cond_Zopp s (Zpos m)) e)
  | _ => x
  end.

(** The array index a number denotes when it is used as a property key
    of an array: a non-negative integer.  Every other number names no
    element. *)
Definition to_index (x : number) : option nat :=
  match x with
  | S754_zero _ => Some O
  | S754_finite false m e =>
      let q := Z.shiftl (Zpos m) e in
      if Z.shiftl q (- e) =? Zpos m then Some (Z.to_nat q) else None
  | _ => None
  end.

Definition one : number := of_Z 1.
Definition ten : number := of_Z 10.

End Number.

Abbreviation number := Number.number.

(* ================================================================== *)
(** ** JavaScript values, strings and property reads *)
(* ================================================================== *)

Inductive value : Type :=
| VUndefined
| VNull
| VBool (b : bool)
| VNum (n : number)
| VStr (s : string)
| VArr (items : list value)
| VObj (props : list (string * value)).

(** ToBoolean. *)
Definition truthy (v : value) : bool :=
  match v with
  | VUndefined | VNull => false
  | VBool b => b
  | VNum n => Number.truthy n
  | VStr s => negb (String.eqb s EmptyString)
  | VArr _ | VObj _ => true
  end.

(** Own data property [k] of an object given by its property list;
    [undefined] when there is none. *)
Fixpoint lookup (k : string) (props : list (string * value)) : value :=
  match props with
  | [] => VUndefined
  | (k', v) :: rest => if String.eqb k k' then v else lookup k rest
  end.

(** The property read [v.k] for a data key [k] that no built-in prototype
    defines (all keys read by the handlers are of that kind).  Reading a
    property of [null] or [undefined] throws a TypeError: [None]. *)
Definition get (v : value) (k : string) : option value :=
  match v with
  | VUndefined | VNull => None
  | VObj props => Some (lookup k props)
  | VBool _ | VNum _ | VStr _ | VArr _ => Some VUndefined
  end.

(** [String.prototype.toLowerCase] on the ASCII letters; every other
    character is left as it is. *)
Definition lower_char (c : ascii) : ascii :=
  let n := nat_of_ascii c in
  if (Nat.leb 65 n && Nat.leb n 90)%bool then ascii_of_nat (n + 32) else c.

Fixpoint toLowerCase (s : string) : string :=
  match s with
  | EmptyString => EmptyString
  | String c rest => String (lower_char c) (toLowerCase rest)
  end.

(** [s.includes(sub)]. *)
Fixpoint includes (s sub : string) : bool :=
  if String.prefix sub s then true
  else
    match s with
    | EmptyString => false
    | String _ rest => includes rest sub
    end.

(** [xs[n]] for an array of strings and a number [n]; [None] is
    [undefined]. *)
Definition array_get (xs : list string) (n : number) : option string :=
  match Number.to_index n with
  | Some i => nth_error xs i
  | None => None
  end.

(** A string or [undefined] as a value, and inside a template literal. *)
Definition of_option_string (o : option string) : value :=
  match o with
  | Some s => VStr s
  | None => VUndefined
  end.

Definition template (o : option string) : string :=
  match o with
  | Some s => s
  | None => "undefined"
  end.

(* ================================================================== *)
(** ** HTTP responses and the outside world *)
(* ================================================================== *)

Record response : Type := { status : Z; body : value }.

(** [res.json(b)] answers with status 200; [res.status(c).json(b)] with
    status [c]. *)
Definition json (b : value) : response := {| status := 200; body := b |}.
Definition status_json (c : Z) (b : value) : response :=
  {| status := c; body := b |}.

(** The file multer leaves in [req.file]. *)
Record upload : Type := { buffer : string; mimetype : string }.

(** What an awaited call gives back: the value it resolves to, or the
    value it rejects with. *)
Inductive awaited (A : Type) : Type :=
| Resolved (a : A)
| Rejected (err : value).
Arguments Resolved {A} a.
Arguments Rejected {A} err.

(** The [{data, error}] pair every supabase call resolves to. *)
Record reply (D : Type) : Type := { data : D; error : value }.
Arguments data {D} r.
Arguments error {D} r.

(** A numeric column of a stored row as the store returns it: absent,
    [null], or a number. *)
Inductive field : Type :=
| Missing
| Null
| Num (n : number).

(** A row of the table [food_logs]. *)
Record FoodLogEntry : Type := {
  calories : field;
  carbs : field;
  sugar : field;
  user_id : value;
  food_name : value;
  created_at : value
}.

(** The day-bounded query of [/getFoodLogs]:
    [.eq('user_id', ..).gte('created_at', ..).lt('created_at', ..)],
    newest first. *)
Record day_query : Type := {
  q_user : value;
  q_from : string;
  q_until : string
}.

(** The calls a handler makes on the table [food_logs]. *)
Inductive store_call : Type :=
| Insert (rows : list value)
| Select (q : day_query).

(** Everything a handler obtains from outside the router file: the random
    source, the generative model, [JSON.parse], the base64 encoding of a
    buffer, the clock and the store.  [generateContent] is given the
    request object; it answers [None] when the call throws, and the text
    of the reply otherwise.  [JSON_parse] answers [None] when it throws.
    [destructure_error b] holds the properties of the TypeError object
    the engine throws when the value [b], [undefined] or [null], is
    destructured.  [day_start] and
    [day_end] are the strings [start.toISOString()] and
    [end.toISOString()] that the handler of [/getFoodLogs] computes from
    the current date; the computation itself is not modelled. *)
Record world : Type := {
  Math_random : number;
  generateContent : value -> option string;
  JSON_parse : string -> option value;
  base64 : string -> string;
  destructure_error : value -> list (string * value);
  day_start : string;
  day_end : string;
  insert : list value -> awaited (reply value);
  select : day_query -> awaited (reply (option (list FoodLogEntry)))
}.

(** What a handler has done when it finishes: the response it sent, if it
    sent one, and the store calls it made, in order.  [sent = None] says
    that the handler has ended without a call of [res]; what the
    framework does with such a request is outside the router file. *)
Record outcome : Type := {
  sent : option response;
  calls : list store_call
}.

(* ================================================================== *)
(** ** POST /analyze *)
(* ================================================================== *)

Module Analyze.

Local Open Scope string_scope.

Definition deadCelebs : list string :=
  [ "Albert Einstein"; "Cleopatra"; "Julius Caesar"; "Shakespeare";
    "Frida Kahlo"; "Bruce Lee"; "Leonardo da Vinci"; "Napoleon Bonaparte";
    "Amelia Earhart"; "Marie Curie" ].

(** [deadCelebs.length]. *)
Definition pool_size : number :=
  Number.of_Z (Z.of_nat (List.length deadCelebs)).

(** [Math.floor(Math.random() * deadCelebs.length)]. *)
Definition celeb_index (r : number) : number :=
  Number.floor (Number.mul r pool_size).

Definition getRandomCeleb (r : number) : option string :=
  array_get deadCelebs (celeb_index r).

(** *** The request sent to the model *)

Definition string_schema (description : string) : value :=
  VObj [("type", VStr "string"); ("description", VStr description)].

Definition number_schema (description : string) : value :=
  VObj [("type", VStr "number"); ("description", VStr description)].

Definition array_schema (description : string) : value :=
  VObj [ ("type", VStr "array");
         ("items", VObj [("type", VStr "string")]);
         ("description", VStr description) ].

Definition required_fields : list string :=
  [ "coachAdvice"; "fallback"; "food"; "benefits"; "calories"; "carbs";
    "sugar"; "drawbacks"; "nutrients" ].

Definition schema_properties (celebName : option string)
  : list (string * value) :=
  [ ("fallback",
      string_schema "If no food is detected, put 'No food detected'. Otherwise, leave empty or null.");
    ("coachAdvice",
      string_schema (template celebName ++ ", you are a resurrected AI nutrition coach. Give humorous, witty, yet insightful advice about this food in under 30 words."));
    ("food",
      string_schema "Name of the food in the image. If multiple foods, summarize briefly.");
    ("benefits",
      array_schema "2-3 health benefits (e.g., 'Improves skin glow', 'Boosts brain function')");
    ("calories",
      number_schema "Estimated total calories (numerical value only)");
    ("carbs",
      number_schema "Estimated total carbs in grams (numerical value only)");
    ("sugar",
      number_schema "Estimated total sugar in grams (numerical value only)");
    ("drawbacks",
      array_schema "2-3 possible negative effects if over-consumed + suggest healthier alternatives");
    ("nutrients",
      array_schema "2-3 key nutrients with benefits + a health score 1-100 (e.g., 'Vitamin C: boosts immunity - Health score: 85')") ].

Definition responseSchema (celebName : option string) : value :=
  VObj [ ("type", VStr "object");
         ("properties", VObj (schema_properties celebName));
         ("required", VArr (map VStr required_fields)) ].

(** A line feed, and a text between double quotes. *)
Definition nl : string := String (ascii_of_nat 10) EmptyString.
Definition quoted (s : string) : string :=
  String (ascii_of_nat 34) s ++ String (ascii_of_nat 34) EmptyString.

(** The template literal of the first part, line by line. *)
Definition instruction (celebName : option string) : string :=
  String.concat nl
    [ "You are an expert nutrition analyst. ";
      "              Carefully analyze the provided image.";
      "              - If it clearly contains food (fruits, vegetables, meals, snacks, ingredients), return structured nutrition data in JSON.";
      "              - If no food is detected (e.g., people, objects, landscapes), set "
        ++ quoted "fallback" ++ " to " ++ quoted "No food detected"
        ++ " and leave other fields minimal/empty.";
      "              ";
      "              The resurrected celebrity coach is: " ++ template celebName ].

Definition user_part (part : value) : value :=
  VObj [("role", VStr "user"); ("parts", VArr [part])].

(** The argument of [ai.models.generateContent]. *)
Definition model_request (w : world) (celebName : option string)
    (file : upload) : value :=
  let base64Image := base64 w (buffer file) in
  VObj [ ("model", VStr "gemini-2.0-flash-exp");
         ("generationConfig",
           VObj [ ("responseMimeType", VStr "application/json");
                  ("responseSchema", responseSchema celebName);
                  ("temperature",
                    VNum (Number.div (Number.of_Z 7) (Number.of_Z 10)));
                  ("topP",
                    VNum (Number.div (Number.of_Z 8) (Number.of_Z 10))) ]);
         ("contents",
           VArr [ user_part (VObj [("text", VStr (instruction celebName))]);
                  user_part
                    (VObj [ ("inlineData",
                              VObj [ ("mimeType", VStr (mimetype file));
                                     ("data", VStr base64Image) ]) ]) ]) ].

(** *** The handler *)

Definition sentinel : string := "no food detected".

Definition error_body (msg : string) : value := VObj [("error", VStr msg)].

(** The two bodies of a successful analysis. *)
Definition fallback_body (fb : value) : value :=
  VObj [("analysis", VObj [("fallback", fb)])].

Definition food_body (analysis : value) (celebName : option string) : value :=
  VObj [("analysis", analysis); ("coach", of_option_string celebName)].

(** The handler from the point where [JSON.parse] has returned
    [analysis].  A TypeError raised here is caught by the outer [catch]
    of the handler. *)
Definition resolve (celebName : option string) (analysis : value)
  : response :=
  match get analysis "fallback" with
  | None => status_json 500 (error_body "Failed to analyze image")
  | Some fb =>
      if truthy fb then
        match fb with
        | VStr s =>
            if includes (toLowerCase s) sentinel
            then json (fallback_body fb)
            else json (food_body analysis celebName)
        | _ =>
            (* [fb.toLowerCase] is not a function *)
            status_json 500 (error_body "Failed to analyze image")
        end
      else json (food_body analysis celebName)
  end.

Definition analyze (w : world) (req_file : option upload) : response :=
  let celebName := getRandomCeleb (Math_random w) in
  match req_file with
  | None => status_json 400 (error_body "No image uploaded")
  | Some file =>
      match generateContent w (model_request w celebName file) with
      | None => status_json 500 (error_body "Failed to analyze image")
      | Some responseText =>
          match JSON_parse w responseText with
          | None =>
              status_json 500 (error_body "Invalid response format from AI")
          | Some analysis => resolve celebName analysis
          end
      end
  end.

(** The fields of the response schema that carry nutrition data. *)
Definition nutrition_fields : list string :=
  [ "calories"; "carbs"; "sugar"; "food"; "benefits"; "drawbacks";
    "nutrients"; "coachAdvice" ].

End Analyze.

(* ================================================================== *)
(** ** POST /save *)
(* ================================================================== *)

Module Save.

Local Open Scope string_scope.

(** The object literal handed to [.insert([...])]. *)
Definition new_row (cal carbs sugar userId foodName : value) : value :=
  VObj [ ("calories", cal); ("carbs", carbs); ("sugar", sugar);
         ("user_id", userId); ("food_name", foodName) ].

(** The [catch] block: [error.message || 'Internal server error'].
    When the caught value is [null] or [undefined] the read of
    [.message] throws inside the [catch] and nothing is sent. *)
Definition failure (err : value) : option response :=
  match get err "message" with
  | None => None
  | Some msg =>
      Some (status_json 500
              (VObj [ ("error", if truthy msg then msg
                                else VStr "Internal server error");
                      ("details", err) ]))
  end.

Definition required_body : value :=
  VObj [("error", VStr "sugar, carbs, cal is required")].

Definition saved_body (stored : value) : value :=
  VObj [ ("success", VBool true);
         ("message", VStr "saved successfully!");
         ("data", stored) ].

(** What the pattern [{cal, sugar, carbs, userId, foodName}] binds to the
    key [k] when [req_body] can be destructured. *)
Definition read (req_body : value) (k : string) : value :=
  match get req_body k with
  | Some v => v
  | None => VUndefined
  end.

(** The handler; [req_body] is [req.body].  Destructuring [undefined] or
    [null] throws a TypeError inside the [try], which the [catch]
    answers; the store is not called. *)
Definition save (w : world) (req_body : value) : outcome :=
  match req_body with
  | VUndefined | VNull =>
      {| sent := failure (VObj (destructure_error w req_body)); calls := [] |}
  | _ =>
      let cal := read req_body "cal" in
      let sugar := read req_body "sugar" in
      let carbs := read req_body "carbs" in
      let userId := read req_body "userId" in
      let foodName := read req_body "foodName" in
      if (negb (truthy cal) || negb (truthy sugar) || negb (truthy carbs))%bool
      then {| sent := Some (status_json 400 required_body); calls := [] |}
      else
        let rows := [new_row cal carbs sugar userId foodName] in
        {| sent :=
             match insert w rows with
             | Resolved r =>
                 if truthy (error r) then failure (error r)
                 else Some (status_json 200 (saved_body (data r)))
             | Rejected err => failure err
             end;
           calls := [Insert rows] |}
  end.

End Save.

(* ================================================================== *)
(** ** GET /getFoodLogs *)
(* ================================================================== *)

Module FoodLogs.

Local Open Scope string_scope.

Record DailyTotals : Type := {
  totalCalories : number;
  totalCarbs : number;
  totalSugar : number
}.

(** [f || 0] for a numeric column [f]. *)
Definition or_zero (f : field) : number :=
  match f with
  | Num n => if Number.truthy n then n else Number.zero
  | Missing | Null => Number.zero
  end.

(** The callback of [data.reduce]. *)
Definition step (acc : DailyTotals) (item : FoodLogEntry) : DailyTotals :=
  {| totalCalories := Number.add (totalCalories acc) (or_zero (calories item));
     totalCarbs := Number.add (totalCarbs acc) (or_zero (carbs item));
     totalSugar := Number.add (totalSugar acc) (or_zero (sugar item)) |}.

Definition init : DailyTotals :=
  {| totalCalories := Number.zero; totalCarbs := Number.zero;
     totalSugar := Number.zero |}.

(** [data.reduce(callback, {totalCalories: 0, totalCarbs: 0, totalSugar: 0})]. *)
Definition reduce (entries : list FoodLogEntry) : DailyTotals :=
  fold_left step entries init.

(** A row and the totals as JSON values of the response. *)
Definition field_props (k : string) (f : field) : list (string * value) :=
  match f with
  | Missing => []
  | Null => [(k, VNull)]
  | Num n => [(k, VNum n)]
  end.

Definition entry_json (e : FoodLogEntry) : value :=
  VObj (field_props "calories" (calories e)
        ++ field_props "carbs" (carbs e)
        ++ field_props "sugar" (sugar e)
        ++ [ ("user_id", user_id e); ("food_name", food_name e);
             ("created_at", created_at e) ])%list.

Definition totals_json (t : DailyTotals) : value :=
  VObj [ ("totalCalories", VNum (totalCalories t));
         ("totalCarbs", VNum (totalCarbs t));
         ("totalSugar", VNum (totalSugar t)) ].

Definition logs_body (rows : list FoodLogEntry) : value :=
  VObj [ ("data", VArr (map entry_json rows));
         ("totals", totals_json (reduce rows)) ].

Definition todays_query (w : world) (userId : value) : day_query :=
  {| q_user := userId; q_from := day_start w; q_until := day_end w |}.

(** The handler; [userId] is [req.query.userId].  After a store error it
    returns at once, without a call of [res]; an exception outside any
    [try] (a rejected query, [null.reduce]) ends it in the same way. *)
Definition getFoodLogs (w : world) (userId : value) : outcome :=
  if negb (truthy userId) then
    {| sent := Some (status_json 400
                       (VObj [("error", VStr "no userId received!")]));
       calls := [] |}
  else
    let q := todays_query w userId in
    {| sent :=
         match select w q with
         | Resolved r =>
             if truthy (error r) then None
             else
               match data r with
               | None => None
               | Some rows => Some (json (logs_body rows))
               end
         | Rejected _ => None
         end;
       calls := [Select q] |}.

(** *** Notions used to state the properties of the totals *)

(** What a column counts for in a sum: the number it holds, and [0] when
    it is missing or [null]. *)
Definition counted (f : field) : number :=
  match f with
  | Num n => n
  | Missing | Null => Number.zero
  end.

(** The sum of one column over the rows, from [0], in row order. *)
Definition column_sum (col : FoodLogEntry -> field)
    (entries : list FoodLogEntry) : number :=
  fold_left (fun acc e => Number.add acc (counted (col e))) entries Number.zero.

(** A number a JSON document can carry: representable, and not NaN. *)
Definition json_number (n : number) : bool :=
  (Number.valid n && negb (Number.is_nan n))%bool.

Definition field_ok (f : field) : bool :=
  match f with
  | Num n => json_number n
  | Missing | Null => true
  end.

Definition entry_ok (e : FoodLogEntry) : bool :=
  (field_ok (calories e) && field_ok (carbs e) && field_ok (sugar e))%bool.

(** The integer a column holds when it holds a non-negative integer
    ([0] for a column that is missing or [null]). *)
Definition count_of (f : field) : Z :=
  match f with
  | Num (S754_finite false m e) => Z.shiftl (Zpos m) e
  | _ => 0
  end.

(** The column is missing, [null], or holds a non-negative integer. *)
Definition is_count (f : field) : Prop :=
  match f with
  | Num n => n = Number.of_Z (count_of f)
  | Missing | Null => True
  end.

Definition count_entry (e : FoodLogEntry) : Prop :=
  is_count (calories e) /\ is_count (carbs e) /\ is_count (sugar e).

(** The exact integer total of one column. *)
Definition column_count (col : FoodLogEntry -> field)
    (entries : list FoodLogEntry) : Z :=
  fold_right (fun e s => count_of (col e) + s) 0 entries.

(** The column holds no negative number. *)
Definition not_negative (f : field) : bool :=
  match f with
  | Num n => negb (Number.ltb n Number.zero)
  | Missing | Null => true
  end.

(** A column is blank when it adds nothing: missing, [null], zero or
    NaN. *)
Definition blank (f : field) : bool :=
  match f with
  | Num n => negb (Number.truthy n)
  | Missing | Null => true
  end.

End FoodLogs.

(* ================================================================== *)
(** ** Notions used in the proofs about numbers *)
(* ================================================================== *)

Module Rounding.

Import Number.

(** The result of [binary_round_aux] from the mantissa and exponent that
    are left after the two shifts. *)
Definition finish (sx : bool) (m e : Z) : number :=
  match m with
  | Z0 => S754_zero sx
  | Zpos p => if e <=? emax - prec then S754_finite sx p e
              else S754_infinity sx
  | Zneg _ => S754_nan
  end.

(** What is known of a record obtained from [M] by [k] shifts: its
    mantissa is the quotient, the round bit is set only if the remainder
    is at least one half, and no bit is set when the division is
    exact. *)
Definition shr_inv (M k : Z) (y : shr_record) : Prop :=
  shr_m y = M / 2 ^ k /\
  (shr_r y = true -> 2 ^ k <= 2 * (M mod 2 ^ k)) /\
  (M mod 2 ^ k = 0 -> shr_r y = false /\ shr_s y = false).

(** The representation of a positive integer with at most 54 bits. *)
Definition canon (N : Z) : number :=
  S754_finite false (Z.to_pos (Z.shiftl N (53 - Zdigits2 N))) (Zdigits2 N - 53).

(** Finite numbers whose exponent is not below the least exponent; every
    representable number is of that kind. *)
Definition wf (x : number) : Prop :=
  match x with
  | S754_finite _ _ e => -1074 <= e
  | _ => True
  end.

(** The cases of a sum in which one operand is not finite or is a
    zero are settled by computation. *)
Ltac add_easy_cases :=
  lazymatch goal with
  | |- context [add (S754_finite _ _ _) (S754_finite _ _ _)] => idtac
  | _ =>
      repeat match goal with s : bool |- _ => destruct s end;
      cbn; intros; (discriminate || auto)
  end.

End Rounding.

(* ================================================================== *)
(** ** Sample requests and worlds *)
(* ================================================================== *)

Module Samples.

Local Open Scope string_scope.

Definition quarter : number := Number.div (Number.of_Z 1) (Number.of_Z 4).
Definition tenth (k : Z) : number := Number.div (Number.of_Z k) (Number.of_Z 10).

(** The middle of the [k]-th tenth of the unit interval. *)
Definition midpoint (k : Z) : number :=
  Number.div (Number.of_Z (2 * k + 1)) (Number.of_Z 20).

Definition photo : upload := {| buffer := "JFIF"; mimetype := "image/jpeg" |}.

Definition stored (d : value) : awaited (reply value) :=
  Resolved {| data := d; error := VNull |}.

Definition store_error (msg : string) : value :=
  VObj [("message", VStr msg); ("code", VStr "23502")].

Definition found (rows : list FoodLogEntry)
  : awaited (reply (option (list FoodLogEntry))) :=
  Resolved {| data := Some rows; error := VNull |}.

Definition not_found (err : value)
  : awaited (reply (option (list FoodLogEntry))) :=
  Resolved {| data := None; error := err |}.

(** The TypeError of a body that cannot be destructured. *)
Definition thrown_type_error : list (string * value) :=
  [("message",
    VStr "Cannot destructure property 'cal' of 'req.body' as it is undefined.")].

(** A world whose model answers [text], whose [JSON.parse] yields
    [parsed], and whose store answers [ins] and [sel]. *)
Definition sample_world (text : option string) (parsed : option value)
    (ins : awaited (reply value))
    (sel : awaited (reply (option (list FoodLogEntry)))) : world :=
  {| Math_random := quarter;
     generateContent := fun _ => text;
     JSON_parse := fun _ => parsed;
     base64 := fun s => s;
     destructure_error := fun _ => thrown_type_error;
     day_start := "2025-03-01T00:00:00.000Z";
     day_end := "2025-03-02T00:00:00.000Z";
     insert := fun _ => ins;
     select := fun _ => sel |}.

Definition model_world (text : option string) (parsed : option value) : world :=
  sample_world text parsed (stored VNull) (found []).

Definition store_world (ins : awaited (reply value))
    (sel : awaited (reply (option (list FoodLogEntry)))) : world :=
  sample_world None None ins sel.

(** A reply that reports no food and still carries nutrition data. *)
Definition stray_reply : value :=
  VObj [ ("fallback", VStr "No Food Detected");
         ("food", VStr "Apple");
         ("calories", VNum (Number.of_Z 95)) ].

(** A reply that lacks most of the required fields. *)
Definition partial_reply : value := VObj [("food", VStr "Apple")].

Definition apple_body : list (string * value) :=
  [ ("cal", VNum (Number.of_Z 250)); ("sugar", VNum (Number.of_Z 10));
    ("carbs", VNum (Number.of_Z 30)); ("userId", VStr "u1");
    ("foodName", VStr "Apple") ].

Definition anonymous_body : list (string * value) :=
  [ ("cal", VNum (Number.of_Z 250)); ("sugar", VNum (Number.of_Z 10));
    ("carbs", VNum (Number.of_Z 30)) ].


Definition entry (c b s : field) : FoodLogEntry :=
  {| calories := c; carbs := b; sugar := s; user_id := VStr "u1";
     food_name := VNull; created_at := VStr "2025-03-01T12:00:00.000Z" |}.

Definition int_entry (c b s : Z) : FoodLogEntry :=
  entry (Num (Number.of_Z c)) (Num (Number.of_Z b)) (Num (Number.of_Z s)).

(** Three snacks with 0.1, 0.2 and 0.3 grams of sugar. *)
Definition snack (k : Z) : FoodLogEntry :=
  entry (Num (Number.of_Z k)) (Num (Number.of_Z k)) (Num (tenth k)).

End Samples.

(* ================================================================== *)
(** ** Facts about numbers *)
(* ================================================================== *)

Module NumberFacts.

Import Number Rounding.

(** *** Binary digits *)

Lemma digits2_bounds (p : positive) :
  2 ^ (Zpos (digits2_pos p) - 1) <= Zpos p < 2 ^ Zpos (digits2_pos p).
Proof.
  induction p as [p IH | p IH | ]; cbn [digits2_pos].
  - rewrite Pos2Z.inj_succ.
    replace (Z.succ (Zpos (digits2_pos p)) - 1)
      with (Z.succ (Zpos (digits2_pos p) - 1)) by lia.
    rewrite !Z.pow_succ_r by lia. lia.
  - rewrite Pos2Z.inj_succ.
    replace (Z.succ (Zpos (digits2_pos p)) - 1)
      with (Z.succ (Zpos (digits2_pos p) - 1)) by lia.
    rewrite !Z.pow_succ_r by lia. lia.
  - cbn. lia.
Qed.

Lemma pow2_lt_inv (a b : Z) : 0 <= b -> 2 ^ a < 2 ^ b -> a < b.
Proof.
  intros Hb H. destruct (Z_lt_le_dec a b) as [|Hle]; [assumption|].
  apply (Z.pow_le_mono_r 2) in Hle; lia.
Qed.

Lemma digits2_unique (p : positive) (d : Z) :
  2 ^ (d - 1) <= Zpos p < 2 ^ d -> Zpos (digits2_pos p) = d.
Proof.
  intros [Hlo Hhi]. pose proof (digits2_bounds p) as [Blo Bhi].
  assert (0 < d).
  { destruct (Z_lt_le_dec 0 d); [assumption|].
    assert (2 ^ d <= 2 ^ 0) by (apply Z.pow_le_mono_r; lia).
    change (2 ^ 0) with 1 in *. lia. }
  assert (Zpos (digits2_pos p) - 1 < d).
  { apply pow2_lt_inv; lia. }
  assert (d - 1 < Zpos (digits2_pos p)).
  { apply pow2_lt_inv; lia. }
  lia.
Qed.

(** *** Iterating a function a positive number of times *)

Lemma iter_pos_invariant {A : Type} (f : A -> A) (P : Z -> A -> Prop) :
  (forall k y, 0 <= k -> P k y -> P (k + 1) (f y)) ->
  forall (n : positive) (k : Z) (x : A),
    0 <= k -> P k x -> P (k + Zpos n) (iter_pos f n x).
Proof.
  intros Hstep. induction n as [n IH | n IH | ]; intros k x Hk Hx; cbn [iter_pos].
  - replace (k + Zpos n~1) with ((k + 1 + Zpos n) + Zpos n) by lia.
    apply IH; [lia|]. apply IH; [lia|]. apply Hstep; assumption.
  - replace (k + Zpos n~0) with ((k + Zpos n) + Zpos n) by lia.
    apply IH; [lia|]. apply IH; assumption.
  - apply Hstep; assumption.
Qed.

Lemma iter_xO_mul (d p : positive) :
  Zpos (Pos.iter xO p d) = Zpos p * 2 ^ Zpos d.
Proof.
  induction d as [|d IH] using Pos.peano_ind.
  - cbn. lia.
  - rewrite Pos.iter_succ, Pos2Z.inj_xO, IH, Pos2Z.inj_succ.
    rewrite Z.pow_succ_r by lia. lia.
Qed.

(** *** Shifting a mantissa to the right *)

Lemma shr_1_spec (y : shr_record) :
  0 <= shr_m y ->
  shr_m (shr_1 y) = shr_m y / 2 /\
  shr_r (shr_1 y) = Z.odd (shr_m y) /\
  shr_s (shr_1 y) = (shr_r y || shr_s y)%bool.
Proof.
  destruct y as [m r s]; cbn [shr_m shr_r shr_s]. intros Hm.
  rewrite <- Z.div2_div.
  destruct m as [|[p|p|]|p]; cbn; try lia; auto.
Qed.

Lemma shr_inv_step (M k : Z) (y : shr_record) :
  0 <= M -> 0 <= k -> shr_inv M k y -> shr_inv M (k + 1) (shr_1 y).
Proof.
  intros HM Hk (Hm & Hr & Hex).
  assert (Hp : 0 < 2 ^ k) by (apply Z.pow_pos_nonneg; lia).
  assert (Hq : 0 <= M / 2 ^ k) by (apply Z.div_pos; lia).
  destruct (shr_1_spec y) as (Hm' & Hr' & Hs'); [lia|].
  assert (Hrec : M mod 2 ^ (k + 1) = M mod 2 ^ k + 2 ^ k * ((M / 2 ^ k) mod 2)).
  { rewrite Z.pow_add_r by lia. change (2 ^ 1) with 2.
    apply Z.rem_mul_r; lia. }
  assert (Hlo : 0 <= M mod 2 ^ k < 2 ^ k) by (apply Z.mod_pos_bound; lia).
  assert (Hb : 0 <= (M / 2 ^ k) mod 2 < 2) by (apply Z.mod_pos_bound; lia).
  assert (Hodd : Z.odd (M / 2 ^ k) = true -> (M / 2 ^ k) mod 2 = 1).
  { intros Ho. rewrite Zmod_odd, Ho. reflexivity. }
  assert (Heven : (M / 2 ^ k) mod 2 = 0 -> Z.odd (M / 2 ^ k) = false).
  { intros He. rewrite Zmod_odd in He. destruct (Z.odd (M / 2 ^ k)); [discriminate|reflexivity]. }
  repeat split.
  - rewrite Hm', Hm, Z.pow_add_r by lia. change (2 ^ 1) with 2.
    rewrite Z.div_div by lia. reflexivity.
  - rewrite Hr', Hm. intros Ho. apply Hodd in Ho.
    rewrite Hrec, Ho, (Z.pow_add_r 2 k 1) by lia. change (2 ^ 1) with 2. lia.
  - rewrite Hr', Hm. apply Heven. nia.
  - rewrite Hs'. assert (M mod 2 ^ k = 0) as H0 by nia.
    destruct (Hex H0) as [-> ->]. reflexivity.
Qed.

Lemma shr_inv_start (M : Z) : shr_inv M 0 (shr_record_of_loc M loc_Exact).
Proof.
  unfold shr_inv; cbn [shr_record_of_loc shr_m shr_r shr_s].
  change (2 ^ 0) with 1. rewrite Z.div_1_r. repeat split; auto; discriminate.
Qed.

Lemma shr_spec (M e n : Z) :
  0 <= M ->
  let '(y, e') := shr (shr_record_of_loc M loc_Exact) e n in
  e' = e + Z.max 0 n /\ shr_inv M (Z.max 0 n) y.
Proof.
  intros HM. destruct n as [|n|n]; cbn [shr].
  - split; [lia | apply shr_inv_start].
  - split; [lia|].
    replace (Z.max 0 (Zpos n)) with (0 + Zpos n) by lia.
    apply (iter_pos_invariant shr_1 (shr_inv M)).
    + intros k y Hk Hy. apply shr_inv_step; assumption.
    + lia.
    + apply shr_inv_start.
  - split; [lia | apply shr_inv_start].
Qed.

(** *** Rounding an exact positive mantissa *)

Lemma fexp_eq (e : Z) : fexp prec emax e = Z.max (e - 53) (-1074).
Proof. reflexivity. Qed.

Lemma round_nearest_even_spec (y : shr_record) :
  let m' := round_nearest_even (shr_m y) (loc_of_shr_record y) in
  (m' = shr_m y \/ (m' = shr_m y + 1 /\ shr_r y = true)) /\
  (shr_r y = false -> m' = shr_m y).
Proof.
  destruct y as [m [|] [|]]; cbn [shr_m shr_r loc_of_shr_record round_nearest_even];
    try (destruct (Z.even m)); split; auto; discriminate.
Qed.

Lemma binary_round_aux_spec (sx : bool) (M : positive) (E : Z) :
  let n1 := Z.max 0 (fexp prec emax (Zpos (digits2_pos M) + E) - E) in
  exists m1 : Z,
    Zpos M / 2 ^ n1 <= m1 <= Zpos M / 2 ^ n1 + 1 /\
    (m1 = Zpos M / 2 ^ n1 + 1 -> 2 ^ n1 <= 2 * (Zpos M mod 2 ^ n1)) /\
    (Zpos M mod 2 ^ n1 = 0 -> m1 = Zpos M / 2 ^ n1) /\
    let n2 := Z.max 0 (fexp prec emax (Zdigits2 m1 + (E + n1)) - (E + n1)) in
    binary_round_aux prec emax sx (Zpos M) E loc_Exact
    = finish sx (m1 / 2 ^ n2) (E + n1 + n2).
Proof.
  intros n1. unfold binary_round_aux, shr_fexp.
  cbn [Zdigits2].
  pose proof (shr_spec (Zpos M) E (fexp prec emax (Zpos (digits2_pos M) + E) - E)) as H1.
  destruct (shr (shr_record_of_loc (Zpos M) loc_Exact) E
              (fexp prec emax (Zpos (digits2_pos M) + E) - E)) as [y1 e1].
  destruct H1 as [He1 (Hm1 & Hr1 & Hx1)]; [lia|]. fold n1 in He1, Hm1, Hr1, Hx1.
  destruct (round_nearest_even_spec y1) as [Hrnd Hrnd0].
  set (m1 := round_nearest_even (shr_m y1) (loc_of_shr_record y1)) in *.
  assert (Hn1 : 0 <= n1) by (unfold n1; lia).
  assert (Hq : 0 <= Zpos M / 2 ^ n1).
  { apply Z.div_pos; [lia | apply Z.pow_pos_nonneg; lia]. }
  exists m1. subst e1. repeat split.
  - destruct Hrnd as [-> | [-> _]]; lia.
  - destruct Hrnd as [-> | [-> _]]; lia.
  - intros Hup. apply Hr1. destruct Hrnd as [Heq | [_ Hr]]; [lia | assumption].
  - intros Hex. rewrite <- Hm1. apply Hrnd0. apply Hx1; assumption.
  - cbv zeta.
    pose proof (shr_spec m1 (E + n1) (fexp prec emax (Zdigits2 m1 + (E + n1)) - (E + n1))) as H2.
    destruct (shr (shr_record_of_loc m1 loc_Exact) (E + n1)
                (fexp prec emax (Zdigits2 m1 + (E + n1)) - (E + n1))) as [y2 e2].
    destruct H2 as [He2 (Hm2 & _)].
    { destruct Hrnd as [-> | [-> _]]; lia. }
    rewrite Hm2, He2. reflexivity.
Qed.

(** *** Numbers below one, and their product with ten *)

Lemma one_eq : one = S754_finite false 4503599627370496 (-52).
Proof. vm_compute. reflexivity. Qed.

Lemma ten_eq : ten = S754_finite false 5629499534213120 (-49).
Proof. vm_compute. reflexivity. Qed.

Lemma below_one_inv (m : positive) (e : Z) :
  valid (S754_finite false m e) = true ->
  ltb (S754_finite false m e) one = true ->
  Zpos m < 2 ^ 53 /\ e <= -53.
Proof.
  rewrite one_eq.
  unfold valid, valid_binary, bounded, canonical_mantissa, ltb, SFltb.
  rewrite fexp_eq. intros Hv Hlt.
  apply andb_true_iff in Hv as [Hc _]. apply Z.eqb_eq in Hc.
  pose proof (digits2_bounds m) as [Dlo Dhi].
  assert (Hd : Zpos (digits2_pos m) <= 53) by lia.
  split.
  - eapply Z.lt_le_trans; [exact Dhi|]. apply Z.pow_le_mono_r; lia.
  - cbn [SFcompare] in Hlt.
    destruct (Z.compare_spec e (-52)) as [He|He|He]; try lia; try discriminate.
    subst e. assert (Zpos (digits2_pos m) = 53) as Hd53 by lia.
    rewrite Hd53 in Dlo.
    rewrite Pos.compare_cont_spec in Hlt. cbn [Pos.switch_Eq] in Hlt.
    destruct (Pos.compare_spec m 4503599627370496) as [Hm|Hm|Hm]; try discriminate.
    exfalso. apply Pos2Z.pos_lt_pos in Hm.
    replace (53 - 1) with 52 in Dlo by reflexivity.
    assert (Hpow : 2 ^ 52 = 4503599627370496) by (vm_compute; reflexivity).
    rewrite Hpow in Dlo. lia.
Qed.

Lemma to_index_small (q : Z) :
  0 <= q < 10 -> to_index (of_Z q) = Some (Z.to_nat q).
Proof.
  intros Hq.
  assert (q = 0 \/ q = 1 \/ q = 2 \/ q = 3 \/ q = 4 \/ q = 5 \/ q = 6 \/
          q = 7 \/ q = 8 \/ q = 9) as Hc by lia.
  repeat (destruct Hc as [-> | Hc]; [vm_compute; reflexivity|]).
  subst q. vm_compute. reflexivity.
Qed.

Lemma floor_mul_ten (m : positive) (e : Z) :
  Zpos m < 2 ^ 53 -> e <= -53 ->
  exists q : Z,
    0 <= q < 10 /\
    to_index (floor (mul (S754_finite false m e) ten)) = Some (Z.to_nat q).
Proof.
  intros Hm He. rewrite ten_eq. unfold mul. cbn [SFmul xorb].
  set (M := (m * 5629499534213120)%positive).
  set (E := e + -49).
  destruct (binary_round_aux_spec false M E) as (m1 & Hm1 & Hup & _ & Hres).
  cbv zeta in Hres. rewrite Hres. clear Hres.
  set (n1 := Z.max 0 (fexp prec emax (Zpos (digits2_pos M) + E) - E)) in *.
  set (n2 := Z.max 0 (fexp prec emax (Zdigits2 m1 + (E + n1)) - (E + n1))).
  set (a := - E).
  assert (Ha : 102 <= a) by (unfold a, E; lia).
  assert (Hn1 : 0 <= n1) by (unfold n1; lia).
  assert (Hn2 : 0 <= n2) by (unfold n2; lia).
  assert (P53 : 2 ^ 53 = 9007199254740992) by (vm_compute; reflexivity).
  assert (HM : Zpos M <= 9007199254740991 * 5629499534213120).
  { unfold M. rewrite Pos2Z.inj_mul. rewrite P53 in Hm. nia. }
  (* the number of digits of the product *)
  assert (HdM : Zpos (digits2_pos M) <= 106).
  { pose proof (digits2_bounds M) as [Dlo _].
    assert (Zpos (digits2_pos M) - 1 < 106); [|lia].
    apply pow2_lt_inv; [lia|].
    eapply Z.le_lt_trans; [exact Dlo|].
    eapply Z.le_lt_trans; [exact HM|].
    vm_compute. reflexivity. }
  (* twice the rounded product stays below twice ten *)
  assert (Pa : 0 < 2 ^ a) by (apply Z.pow_pos_nonneg; lia).
  assert (Pn1 : 0 < 2 ^ n1) by (apply Z.pow_pos_nonneg; lia).
  assert (Pn2 : 0 < 2 ^ n2) by (apply Z.pow_pos_nonneg; lia).
  assert (Hn1b : n1 <= 53 \/ (n1 <= a - 1074 /\ 1074 <= a)).
  { unfold n1. rewrite fexp_eq. unfold a in *. lia. }
  assert (Hround : 2 * (m1 * 2 ^ n1) <= 2 * Zpos M + 2 ^ n1).
  { pose proof (Z.div_mod (Zpos M) (2 ^ n1)) as Hdm.
    pose proof (Z.mod_pos_bound (Zpos M) (2 ^ n1) Pn1) as Hmod.
    destruct (Z.eq_dec m1 (Zpos M / 2 ^ n1 + 1)) as [Heq | Hne].
    - specialize (Hup Heq). rewrite Heq. nia.
    - assert (m1 = Zpos M / 2 ^ n1) as -> by lia. nia. }
  assert (P104 : 2 ^ 102 <= 2 ^ a) by (apply Z.pow_le_mono_r; lia).
  assert (V102 : 2 ^ 102 = 5070602400912917605986812821504)
    by (vm_compute; reflexivity).
  assert (Hbound : 2 * Zpos M + 2 ^ n1 < 20 * 2 ^ a).
  { destruct Hn1b as [H53 | [Hsub H1074]].
    - assert (2 ^ n1 <= 2 ^ 53) by (apply Z.pow_le_mono_r; lia).
      rewrite P53 in *. lia.
    - assert (2 ^ n1 <= 2 ^ a) by (apply Z.pow_le_mono_r; lia).
      assert (2 ^ 104 <= 2 ^ a) by (apply Z.pow_le_mono_r; lia).
      assert (V104 : 2 ^ 104 = 20282409603651670423947251286016)
        by (vm_compute; reflexivity).
      lia. }
  assert (Hm1pos : 0 <= m1).
  { assert (0 <= Zpos M / 2 ^ n1) by (apply Z.div_pos; lia). lia. }
  (* the mantissa left by the second shift *)
  set (mf := m1 / 2 ^ n2).
  assert (Hmf : 0 <= mf /\ mf * 2 ^ n2 <= m1).
  { unfold mf. split; [apply Z.div_pos; lia|].
    pose proof (Z.mul_div_le m1 (2 ^ n2) Pn2). lia. }
  assert (Hfin : 2 * (mf * 2 ^ (n1 + n2)) < 20 * 2 ^ a).
  { rewrite Z.pow_add_r by lia. nia. }
  unfold finish. destruct mf as [|p|p] eqn:Emf; [| |lia].
  - exists 0. split; [lia|]. reflexivity.
  - (* the exponent of the result is below 4 *)
    assert (Hexp : n1 + n2 < a + 4).
    { apply pow2_lt_inv; [lia|].
      rewrite (Z.pow_add_r 2 a 4) by lia. change (2 ^ 4) with 16.
      assert (2 ^ (n1 + n2) <= Zpos p * 2 ^ (n1 + n2)); [|lia].
      assert (0 < 2 ^ (n1 + n2)) by (apply Z.pow_pos_nonneg; lia). nia. }
    replace (E + n1 + n2) with (n1 + n2 - a) by (unfold a; lia).
    set (ef := n1 + n2 - a) in *.
    assert ((ef <=? emax - prec) = true) as ->.
    { apply Z.leb_le. unfold emax, prec, ef. lia. }
    unfold floor. destruct (Z.leb_spec 0 ef) as [Hef | Hef].
    + (* an integer already *)
      exists (Zpos p * 2 ^ ef).
      assert (Hsplit : 2 ^ (n1 + n2) = 2 ^ ef * 2 ^ a).
      { rewrite <- Z.pow_add_r by lia. f_equal. unfold ef. lia. }
      assert (Pef : 0 < 2 ^ ef) by (apply Z.pow_pos_nonneg; lia).
      split; [split; [lia | nia]|].
      unfold to_index. cbv zeta.
      rewrite (Z.shiftl_mul_pow2 (Zpos p) ef) by lia.
      rewrite Z.shiftl_div_pow2 by lia.
      rewrite Z.opp_involutive, Z.div_mul by lia.
      rewrite Z.eqb_refl. reflexivity.
    + exists (Zpos p / 2 ^ (- ef)).
      assert (Pef : 0 < 2 ^ (- ef)) by (apply Z.pow_pos_nonneg; lia).
      assert (Hsplit : 2 ^ a = 2 ^ (n1 + n2) * 2 ^ (- ef)).
      { rewrite <- Z.pow_add_r by lia. f_equal. unfold ef. lia. }
      assert (Pt : 0 < 2 ^ (n1 + n2)) by (apply Z.pow_pos_nonneg; lia).
      assert (Hq : 0 <= Zpos p / 2 ^ (- ef) < 10).
      { split; [apply Z.div_pos; lia|].
        apply Z.div_lt_upper_bound; [lia|]. nia. }
      split; [exact Hq|].
      cbn [cond_Zopp]. rewrite Z.shiftl_div_pow2 by lia.
      apply to_index_small. exact Hq.
Qed.

(** *** Values that need no rounding *)

(** A positive mantissa and exponent whose value is that of a normal
    number [M' * 2^E'] are normalised to that number. *)
Lemma binary_round_aux_exact (sx : bool) (M M' : positive) (E n : Z) :
  0 <= n ->
  Zpos M = Zpos M' * 2 ^ n ->
  Zpos (digits2_pos M') = 53 ->
  -1074 <= E + n <= 971 ->
  binary_round_aux prec emax sx (Zpos M) E loc_Exact = S754_finite sx M' (E + n).
Proof.
  intros Hn HM Hd HE.
  pose proof (digits2_bounds M') as [Dlo Dhi]. rewrite Hd in Dlo, Dhi.
  assert (Pn : 0 < 2 ^ n) by (apply Z.pow_pos_nonneg; lia).
  assert (HdM : Zpos (digits2_pos M) = 53 + n).
  { apply digits2_unique. rewrite HM.
    replace (53 + n - 1) with (52 + n) by lia.
    rewrite !Z.pow_add_r by lia. change (53 - 1) with 52 in Dlo. nia. }
  destruct (binary_round_aux_spec sx M E) as (m1 & _ & _ & Hex & Hres).
  cbv zeta in Hres. rewrite Hres. clear Hres.
  assert (Hn1 : Z.max 0 (fexp prec emax (Zpos (digits2_pos M) + E) - E) = n)
    by (rewrite HdM, fexp_eq; lia).
  rewrite Hn1 in *.
  assert (Hm1 : m1 = Zpos M').
  { rewrite Hex; rewrite HM.
    - apply Z.div_mul; lia.
    - apply Z.mod_mul; lia. }
  subst m1. cbn [Zdigits2].
  assert (Hn2 : Z.max 0 (fexp prec emax (Zpos (digits2_pos M') + (E + n)) - (E + n)) = 0)
    by (rewrite Hd, fexp_eq; lia).
  rewrite Hn2. change (2 ^ 0) with 1. rewrite Z.div_1_r, Z.add_0_r. cbn [finish].
  assert ((E + n <=? emax - prec) = true) as ->; [|reflexivity].
  apply Z.leb_le. unfold emax, prec. lia.
Qed.

Lemma binary_round_exact (sx : bool) (p M' : positive) (e E' : Z) :
  Zpos (digits2_pos M') = 53 ->
  -1074 <= E' <= 971 ->
  (E' <= e /\ Zpos M' = Zpos p * 2 ^ (e - E')) \/
  (e <= E' /\ Zpos p = Zpos M' * 2 ^ (E' - e)) ->
  binary_round prec emax sx p e = S754_finite sx M' E'.
Proof.
  intros Hd HE Hval.
  pose proof (digits2_bounds M') as [Dlo Dhi]. rewrite Hd in Dlo, Dhi.
  change (53 - 1) with 52 in Dlo.
  assert (Hdp : Zpos (digits2_pos p) + e = 53 + E').
  { destruct Hval as [[Hle Hv] | [Hle Hv]].
    - assert (Pn : 0 < 2 ^ (e - E')) by (apply Z.pow_pos_nonneg; lia).
      assert (Hsmall : e - E' < 53).
      { apply pow2_lt_inv; [lia|]. nia. }
      assert (Zpos (digits2_pos p) = 53 - (e - E')); [|lia].
      apply digits2_unique.
      assert (2 ^ 52 = 2 ^ (53 - (e - E') - 1) * 2 ^ (e - E')) as H52.
      { rewrite <- Z.pow_add_r by lia. f_equal; lia. }
      assert (2 ^ 53 = 2 ^ (53 - (e - E')) * 2 ^ (e - E')) as H53.
      { rewrite <- Z.pow_add_r by lia. f_equal; lia. }
      assert (0 < 2 ^ (53 - (e - E') - 1)) by (apply Z.pow_pos_nonneg; lia).
      assert (0 < 2 ^ (53 - (e - E'))) by (apply Z.pow_pos_nonneg; lia).
      nia.
    - assert (Pn : 0 < 2 ^ (E' - e)) by (apply Z.pow_pos_nonneg; lia).
      assert (Zpos (digits2_pos p) = 53 + (E' - e)); [|lia].
      apply digits2_unique. rewrite Hv.
      replace (53 + (E' - e) - 1) with (52 + (E' - e)) by lia.
      rewrite !Z.pow_add_r by lia. nia. }
  unfold binary_round. rewrite Hdp, fexp_eq.
  replace (Z.max (53 + E' - 53) (-1074)) with E' by lia.
  unfold shl_align.
  destruct (E' - e) as [|d|d] eqn:Hdiff.
  - (* already aligned *)
    assert (e = E') by lia. subst e.
    pose proof (binary_round_aux_exact sx p M' E' 0) as H.
    rewrite Z.add_0_r in H. apply H; try lia.
    destruct Hval as [[_ Hv] | [_ Hv]];
      try rewrite Z.sub_diag in Hv; change (2 ^ 0) with 1 in *; lia.
  - (* the mantissa has low zero bits *)
    destruct Hval as [[Hle Hv] | [Hle Hv]]; [lia|].
    pose proof (binary_round_aux_exact sx p M' e (Zpos d)) as H.
    replace (e + Zpos d) with E' in H by lia. apply H; lia.
  - (* the mantissa is shifted left *)
    destruct Hval as [[Hle Hv] | [Hle Hv]]; [|lia].
    pose proof (binary_round_aux_exact sx (Pos.iter xO p d) M' E' 0) as H.
    rewrite Z.add_0_r in H. apply H; try lia.
    rewrite iter_xO_mul. change (2 ^ 0) with 1.
    rewrite Hv. replace (e - E') with (Zpos d) by lia. lia.
Qed.

(** *** Integers up to 2^53 *)

Lemma Zdigits2_bounds (N : Z) :
  0 < N -> 2 ^ (Zdigits2 N - 1) <= N < 2 ^ Zdigits2 N.
Proof.
  destruct N as [|n|n]; try lia. intros _. apply digits2_bounds.
Qed.

Lemma Zdigits2_le_53 (N : Z) : 0 < N < 2 ^ 53 -> 1 <= Zdigits2 N <= 53.
Proof.
  intros HN. pose proof (Zdigits2_bounds N) as [Dlo Dhi]; [lia|].
  split.
  - destruct N; cbn [Zdigits2]; lia.
  - assert (Zdigits2 N - 1 < 53); [|lia]. apply pow2_lt_inv; lia.
Qed.

Lemma canon_lt_53 (N : Z) :
  0 < N < 2 ^ 53 ->
  exists M : positive,
    canon N = S754_finite false M (Zdigits2 N - 53) /\
    Zpos M = N * 2 ^ (53 - Zdigits2 N) /\
    Zpos (digits2_pos M) = 53.
Proof.
  intros HN. pose proof (Zdigits2_le_53 N HN) as Hd.
  pose proof (Zdigits2_bounds N) as [Dlo Dhi]; [lia|].
  set (d := Zdigits2 N) in *.
  assert (Pk : 0 < 2 ^ (53 - d)) by (apply Z.pow_pos_nonneg; lia).
  exists (Z.to_pos (N * 2 ^ (53 - d))).
  assert (Hpos : Zpos (Z.to_pos (N * 2 ^ (53 - d))) = N * 2 ^ (53 - d)).
  { apply Z2Pos.id. nia. }
  unfold canon. fold d. rewrite Z.shiftl_mul_pow2 by lia.
  repeat split; [exact Hpos|].
  apply digits2_unique. rewrite Hpos.
  assert (2 ^ 53 = 2 ^ d * 2 ^ (53 - d)) as H53.
  { rewrite <- Z.pow_add_r by lia. f_equal; lia. }
  assert (2 ^ (53 - 1) = 2 ^ (d - 1) * 2 ^ (53 - d)) as H52.
  { rewrite <- Z.pow_add_r by lia. f_equal; lia. }
  rewrite H53, H52. nia.
Qed.

Lemma normalize_int (p : positive) (k N : Z) :
  0 <= k -> 0 < N <= 2 ^ 53 -> Zpos p = N * 2 ^ k ->
  binary_round prec emax false p (- k) = canon N.
Proof.
  intros Hk HN Hp.
  assert (Pk : 0 < 2 ^ k) by (apply Z.pow_pos_nonneg; lia).
  destruct (Z.eq_dec N (2 ^ 53)) as [Htop | Hlt].
  - (* the integer 2^53 *)
    subst N. change (canon (2 ^ 53)) with (S754_finite false 4503599627370496 1).
    apply binary_round_exact; [reflexivity | lia |]. right. split; [lia|].
    rewrite Hp. replace (1 - - k) with (1 + k) by lia.
    rewrite Z.pow_add_r by lia.
    change (2 ^ 53) with (4503599627370496 * 2 ^ 1). lia.
  - destruct (canon_lt_53 N) as (M & -> & HM & HdM); [lia|].
    pose proof (Zdigits2_le_53 N) as Hd.
    set (d := Zdigits2 N) in *.
    apply binary_round_exact; [exact HdM | lia |].
    destruct (Z_le_gt_dec (d - 53) (- k)) as [Hle | Hgt].
    + left. split; [exact Hle|]. rewrite HM, Hp.
      replace (53 - d) with (k + (- k - (d - 53))) by lia.
      rewrite Z.pow_add_r by lia. lia.
    + right. split; [lia|]. rewrite HM, Hp.
      replace k with ((53 - d) + (d - 53 - - k)) at 1 by lia.
      rewrite Z.pow_add_r by lia. lia.
Qed.

Lemma of_Z_canon (N : Z) : 0 < N <= 2 ^ 53 -> of_Z N = canon N.
Proof.
  intros HN. destruct N as [|n|n]; try lia.
  unfold of_Z. cbn [binary_normalize].
  change 0 with (- 0). apply normalize_int; [lia | exact HN |].
  change (2 ^ 0) with 1. lia.
Qed.

Lemma shl_align_fst (m : positive) (e ez : Z) :
  ez <= e -> Zpos (fst (shl_align m e ez)) = Zpos m * 2 ^ (e - ez).
Proof.
  intros Hle. unfold shl_align.
  destruct (ez - e) as [|d|d] eqn:Hd; cbn [fst]; try lia.
  - replace (e - ez) with 0 by lia. change (2 ^ 0) with 1. lia.
  - rewrite iter_xO_mul. f_equal. f_equal. lia.
Qed.

(** Adding two positive integers whose sum is at most 2^53 is exact. *)
Lemma add_canon (a b : Z) :
  0 < a -> 0 < b -> a + b <= 2 ^ 53 ->
  add (canon a) (canon b) = canon (a + b).
Proof.
  intros Ha Hb Hab.
  destruct (canon_lt_53 a) as (ma & -> & Hma & _); [lia|].
  destruct (canon_lt_53 b) as (mb & -> & Hmb & _); [lia|].
  pose proof (Zdigits2_le_53 a) as Hda.
  pose proof (Zdigits2_le_53 b) as Hdb.
  set (ea := Zdigits2 a - 53) in *. set (eb := Zdigits2 b - 53) in *.
  unfold add, SFadd. cbv zeta. cbn [cond_Zopp].
  set (ez := Z.min ea eb).
  assert (Hez : ez <= ea /\ ez <= eb /\ ez <= 0) by (unfold ez, ea, eb; lia).
  set (x := fst (shl_align ma ea ez)). set (y := fst (shl_align mb eb ez)).
  change (Zpos x + Zpos y) with (Zpos (x + y)). cbn [binary_normalize].
  replace ez with (- - ez) at 1 by lia.
  apply normalize_int; [lia | lia |].
  rewrite Pos2Z.inj_add. unfold x, y.
  rewrite !shl_align_fst by lia. rewrite Hma, Hmb.
  replace (53 - Zdigits2 a) with (- ea) by (unfold ea; lia).
  replace (53 - Zdigits2 b) with (- eb) by (unfold eb; lia).
  rewrite <- !Z.mul_assoc, <- !Z.pow_add_r by lia.
  replace (- ea + (ea - ez)) with (- ez) by lia.
  replace (- eb + (eb - ez)) with (- ez) by lia. lia.
Qed.

(** Integer-valued numbers add exactly up to 2^53. *)
Lemma add_of_Z (a b : Z) :
  0 <= a -> 0 <= b -> a + b <= 2 ^ 53 ->
  add (of_Z a) (of_Z b) = of_Z (a + b).
Proof.
  intros Ha Hb Hab.
  destruct (Z.eq_dec a 0) as [-> | Ha0].
  - rewrite Z.add_0_l. destruct (Z.eq_dec b 0) as [-> | Hb0]; [reflexivity|].
    rewrite (of_Z_canon b) by lia.
    destruct (Z.eq_dec b (2 ^ 53)) as [-> | Hlt]; [reflexivity|].
    destruct (canon_lt_53 b) as (mb & -> & _); [lia|]. reflexivity.
  - destruct (Z.eq_dec b 0) as [-> | Hb0].
    + rewrite Z.add_0_r. rewrite (of_Z_canon a) by lia.
      destruct (Z.eq_dec a (2 ^ 53)) as [-> | Hlt]; [reflexivity|].
      destruct (canon_lt_53 a) as (ma & -> & _); [lia|]. reflexivity.
    + rewrite !of_Z_canon by lia. apply add_canon; lia.
Qed.

(** *** Sums are never the negative zero *)

Lemma valid_wf (x : number) : valid x = true -> wf x.
Proof.
  destruct x as [s | s | | s m e]; cbn; auto.
  unfold bounded, canonical_mantissa. rewrite fexp_eq. intros H.
  apply andb_true_iff in H as [H _]. apply Z.eqb_eq in H. lia.
Qed.

Lemma div_pow2_digits (m d : Z) :
  0 < m -> 53 <= d -> 2 ^ (d - 1) <= m -> 1 <= m / 2 ^ (d - 53).
Proof.
  intros Hm Hd Hlo.
  assert (P : 0 < 2 ^ (d - 53)) by (apply Z.pow_pos_nonneg; lia).
  apply Z.div_le_lower_bound; [lia|].
  assert (2 ^ (d - 53) <= 2 ^ (d - 1)) by (apply Z.pow_le_mono_r; lia).
  lia.
Qed.

Lemma binary_round_aux_nonzero (sx : bool) (M : positive) (E : Z) :
  -1074 <= E ->
  binary_round_aux prec emax sx (Zpos M) E loc_Exact = S754_infinity sx \/
  exists (p : positive) (e : Z),
    binary_round_aux prec emax sx (Zpos M) E loc_Exact = S754_finite sx p e /\
    -1074 <= e.
Proof.
  intros HE.
  destruct (binary_round_aux_spec sx M E) as (m1 & Hm1 & _ & _ & Hres).
  cbv zeta in Hres. rewrite Hres. clear Hres.
  pose proof (digits2_bounds M) as [Dlo _].
  set (dM := Zpos (digits2_pos M)) in *.
  set (n1 := Z.max 0 (fexp prec emax (dM + E) - E)) in *.
  assert (Hn1 : n1 = Z.max 0 (dM - 53)) by (unfold n1; rewrite fexp_eq; lia).
  assert (H1 : 1 <= m1).
  { enough (1 <= Zpos M / 2 ^ n1) by lia.
    destruct (Z_le_gt_dec 53 dM) as [Hbig | Hsmall].
    - replace n1 with (dM - 53) by lia. apply div_pow2_digits; lia.
    - replace n1 with 0 by lia. change (2 ^ 0) with 1. rewrite Z.div_1_r. lia. }
  set (n2 := Z.max 0 (fexp prec emax (Zdigits2 m1 + (E + n1)) - (E + n1))).
  assert (Hn2 : n2 = Z.max 0 (Zdigits2 m1 - 53)) by (unfold n2; rewrite fexp_eq; lia).
  assert (H2 : 1 <= m1 / 2 ^ n2).
  { pose proof (Zdigits2_bounds m1) as [D1 _]; [lia|].
    destruct (Z_le_gt_dec 53 (Zdigits2 m1)) as [Hbig | Hsmall].
    - replace n2 with (Zdigits2 m1 - 53) by lia. apply div_pow2_digits; lia.
    - replace n2 with 0 by lia. change (2 ^ 0) with 1. rewrite Z.div_1_r. lia. }
  unfold finish. destruct (m1 / 2 ^ n2) as [|p|p]; try lia.
  destruct (E + n1 + n2 <=? emax - prec); [right | left; reflexivity].
  exists p, (E + n1 + n2). split; [reflexivity | lia].
Qed.

Lemma binary_round_nonzero (sx : bool) (p : positive) (e : Z) :
  -1074 <= e ->
  binary_round prec emax sx p e = S754_infinity sx \/
  exists (q : positive) (e' : Z),
    binary_round prec emax sx p e = S754_finite sx q e' /\ -1074 <= e'.
Proof.
  intros He. unfold binary_round, shl_align. rewrite fexp_eq.
  destruct (Z.max (Zpos (digits2_pos p) + e - 53) (-1074) - e) eqn:Hd;
    apply binary_round_aux_nonzero; lia.
Qed.

Lemma add_finite_shape (sx sy : bool) (mx my : positive) (ex ey : Z) :
  -1074 <= ex -> -1074 <= ey ->
  let r := add (S754_finite sx mx ex) (S754_finite sy my ey) in
  r = S754_zero false \/ (exists s, r = S754_infinity s) \/
  exists s q e, r = S754_finite s q e /\ -1074 <= e.
Proof.
  intros Hx Hy. unfold add, SFadd. cbv zeta.
  set (S := cond_Zopp sx (Zpos (fst (shl_align mx ex (Z.min ex ey)))) +
            cond_Zopp sy (Zpos (fst (shl_align my ey (Z.min ex ey))))).
  destruct S as [|p|p]; cbn [binary_normalize].
  - left. reflexivity.
  - right. destruct (binary_round_nonzero false p (Z.min ex ey)) as [H | (q & e & H & He)];
      [lia | left; eauto | right; eauto].
  - right. destruct (binary_round_nonzero true p (Z.min ex ey)) as [H | (q & e & H & He)];
      [lia | left; eauto | right; eauto].
Qed.

Lemma add_wf (x y : number) : wf x -> wf y -> wf (add x y).
Proof.
  destruct x as [sx | sx | | sx mx ex], y as [sy | sy | | sy my ey];
    add_easy_cases.
  cbn [wf]; intros Hx Hy.
  destruct (add_finite_shape sx sy mx my ex ey Hx Hy)
    as [-> | [(s & ->) | (s & q & e & -> & He)]]; cbn; auto.
Qed.

Lemma add_neg_zero (x y : number) :
  wf x -> wf y -> add x y = S754_zero true ->
  x = S754_zero true /\ y = S754_zero true.
Proof.
  destruct x as [sx | sx | | sx mx ex], y as [sy | sy | | sy my ey];
    add_easy_cases.
  cbn [wf]; intros Hx Hy.
  destruct (add_finite_shape sx sy mx my ex ey Hx Hy)
    as [-> | [(s & ->) | (s & q & e & -> & He)]]; discriminate.
Qed.

End NumberFacts.

(* ================================================================== *)
(** ** Properties of POST /analyze *)
(* ================================================================== *)

Module AnalyzeFacts.

Import Rounding NumberFacts Analyze Samples.
Local Open Scope string_scope.

Lemma pool_size_ten : pool_size = Number.ten.
Proof. reflexivity. Qed.

(** For a random draw in [0, 1) the computed index is one of 0 .. 9. *)
Lemma celeb_index_range (r : number) :
  Number.valid r = true ->
  Number.leb Number.zero r = true ->
  Number.ltb r Number.one = true ->
  exists i : nat, (i < 10)%nat /\ Number.to_index (celeb_index r) = Some i.
Proof.
  intros Hv H0 H1. unfold celeb_index. rewrite pool_size_ten.
  destruct r as [s | s | | s m e].
  - exists 0%nat. split; [lia | destruct s; reflexivity].
  - destruct s; discriminate.
  - discriminate.
  - destruct s; [discriminate|].
    destruct (below_one_inv m e Hv H1) as [Hm He].
    destruct (floor_mul_ten m e Hm He) as (q & Hq & Hidx).
    exists (Z.to_nat q). split; [lia | exact Hidx].
Qed.

Lemma pool_nth (i : nat) :
  (i < 10)%nat ->
  exists name, nth_error deadCelebs i = Some name /\ In name deadCelebs.
Proof.
  intros Hi. destruct (nth_error deadCelebs i) as [name|] eqn:Hn.
  - exists name. split; [reflexivity|]. eapply nth_error_In; eassumption.
  - apply nth_error_None in Hn. cbn in Hn. lia.
Qed.

Lemma celeb_in_pool (r : number) :
  Number.valid r = true ->
  Number.leb Number.zero r = true ->
  Number.ltb r Number.one = true ->
  exists name, getRandomCeleb r = Some name /\ In name deadCelebs.
Proof.
  intros Hv H0 H1.
  destruct (celeb_index_range r Hv H0 H1) as (i & Hi & Hidx).
  destruct (pool_nth i Hi) as (name & Hn & Hin).
  exists name. split; [|exact Hin].
  unfold getRandomCeleb, array_get. rewrite Hidx. exact Hn.
Qed.

(** What [analyze] does once the model has answered and the answer has
    been parsed. *)
Lemma analyze_parsed (w : world) (file : upload) (responseText : string)
    (analysis : value) :
  generateContent w (model_request w (getRandomCeleb (Math_random w)) file)
    = Some responseText ->
  JSON_parse w responseText = Some analysis ->
  analyze w (Some file) = resolve (getRandomCeleb (Math_random w)) analysis.
Proof. intros Hg Hp. unfold analyze. rewrite Hg, Hp. reflexivity. Qed.

Lemma truthy_string (s : string) : s <> "" -> truthy (VStr s) = true.
Proof.
  intros Hs. cbn. destruct (String.eqb_spec s ""); [contradiction | reflexivity].
Qed.

(** C1.  When the parsed reply has a non-empty [fallback] string whose
    lowercase form contains "no food detected", the answer is 200 with
    a body that holds the fallback message and nothing else: reading
    any nutrition field of the returned analysis gives [undefined],
    whatever the reply carried. *)
Theorem C1_fallback_discards_nutrition (w : world) (file : upload)
    (responseText : string) (analysis : value) (s : string) :
  generateContent w (model_request w (getRandomCeleb (Math_random w)) file)
    = Some responseText ->
  JSON_parse w responseText = Some analysis ->
  get analysis "fallback" = Some (VStr s) ->
  s <> "" ->
  includes (toLowerCase s) sentinel = true ->
  analyze w (Some file)
    = {| status := 200;
         body := VObj [("analysis", VObj [("fallback", VStr s)])] |} /\
  exists returned,
    get (body (analyze w (Some file))) "analysis" = Some returned /\
    get returned "fallback" = Some (VStr s) /\
    forall k, In k nutrition_fields -> get returned k = Some VUndefined.
Proof.
  intros Hg Hp Hfb Hs Hinc.
  rewrite (analyze_parsed w file responseText analysis Hg Hp).
  unfold resolve. rewrite Hfb, (truthy_string s Hs), Hinc.
  split; [reflexivity|].
  exists (VObj [("fallback", VStr s)]). repeat split.
  intros k Hk. cbn in Hk.
  repeat (destruct Hk as [<- | Hk]; [reflexivity|]). contradiction.
Qed.

Lemma C1_witness :
  analyze (model_world (Some "reply") (Some stray_reply)) (Some photo)
    = {| status := 200;
         body := VObj [("analysis", VObj [("fallback", VStr "No Food Detected")])] |} /\
  exists returned,
    get (body (analyze (model_world (Some "reply") (Some stray_reply)) (Some photo)))
        "analysis" = Some returned /\
    get returned "fallback" = Some (VStr "No Food Detected") /\
    forall k, In k nutrition_fields -> get returned k = Some VUndefined.
Proof.
  apply (C1_fallback_discards_nutrition
           (model_world (Some "reply") (Some stray_reply)) photo "reply"
           stray_reply "No Food Detected").
  - reflexivity.
  - reflexivity.
  - reflexivity.
  - discriminate.
  - reflexivity.
Defined.

(** C2, as the specification states it, fails: a reply that parses, has
    no fallback and lacks required fields is answered with 200 and the
    partial analysis, not with the 500 of an invalid format. *)
Lemma C2_counterexample :
  JSON_parse (model_world (Some "reply") (Some partial_reply)) "reply"
    = Some partial_reply /\
  In "calories" required_fields /\
  get partial_reply "calories" = Some VUndefined /\
  get partial_reply "fallback" = Some VUndefined /\
  analyze (model_world (Some "reply") (Some partial_reply)) (Some photo)
    = {| status := 200;
         body := VObj [ ("analysis", VObj [("food", VStr "Apple")]);
                        ("coach", VStr "Julius Caesar") ] |} /\
  analyze (model_world (Some "reply") (Some partial_reply)) (Some photo)
    <> status_json 500 (error_body "Invalid response format from AI").
Proof.
  repeat split; try reflexivity.
  - cbn. auto 10.
  - discriminate.
Qed.

(** C2, amended.  The handler checks no required field.  A reply that
    parses to a value other than [null] and carries no fallback
    sentinel (its [fallback] is absent or falsy, or a string whose
    lowercase form lacks the sentinel) is answered with 200, the parsed
    value unchanged as [analysis], and the persona as [coach]. *)
Theorem C2_no_required_field_check (w : world) (file : upload)
    (responseText : string) (analysis fb : value) :
  generateContent w (model_request w (getRandomCeleb (Math_random w)) file)
    = Some responseText ->
  JSON_parse w responseText = Some analysis ->
  get analysis "fallback" = Some fb ->
  (truthy fb = false \/
   exists s, fb = VStr s /\ includes (toLowerCase s) sentinel = false) ->
  analyze w (Some file)
    = {| status := 200;
         body := VObj [ ("analysis", analysis);
                        ("coach", of_option_string
                                    (getRandomCeleb (Math_random w))) ] |}.
Proof.
  intros Hg Hp Hfb Hno.
  rewrite (analyze_parsed w file responseText analysis Hg Hp).
  unfold resolve. rewrite Hfb.
  destruct Hno as [Hfalsy | (s & -> & Hinc)].
  - rewrite Hfalsy. reflexivity.
  - rewrite Hinc. destruct (truthy (VStr s)); reflexivity.
Qed.

Lemma C2_witness :
  analyze (model_world (Some "reply") (Some partial_reply)) (Some photo)
    = {| status := 200;
         body := VObj [ ("analysis", partial_reply);
                        ("coach", VStr "Julius Caesar") ] |}.
Proof.
  apply (C2_no_required_field_check
           (model_world (Some "reply") (Some partial_reply)) photo "reply"
           partial_reply VUndefined).
  - reflexivity.
  - reflexivity.
  - reflexivity.
  - left. reflexivity.
Defined.

(** C3.  When [JSON.parse] throws on the reply of the model, the answer
    is 500 with the error "Invalid response format from AI". *)
Theorem C3_unparseable_reply (w : world) (file : upload)
    (responseText : string) :
  generateContent w (model_request w (getRandomCeleb (Math_random w)) file)
    = Some responseText ->
  JSON_parse w responseText = None ->
  analyze w (Some file)
    = {| status := 500;
         body := VObj [("error", VStr "Invalid response format from AI")] |}.
Proof. intros Hg Hp. unfold analyze. rewrite Hg, Hp. reflexivity. Qed.

Lemma C3_witness :
  analyze (model_world (Some "I cannot see an image") None) (Some photo)
    = {| status := 500;
         body := VObj [("error", VStr "Invalid response format from AI")] |}.
Proof.
  apply (C3_unparseable_reply
           (model_world (Some "I cannot see an image") None) photo
           "I cannot see an image"); reflexivity.
Defined.

(** C10.  For every random draw [r] with [0 <= r < 1], the number
    [Math.floor(r * 10)] is an index of the pool of ten names, and the
    persona is the name at that index.  The persona is a function of
    the draw alone. *)
Theorem C10_persona_index_valid (r : number) :
  Number.valid r = true ->
  Number.leb Number.zero r = true ->
  Number.ltb r Number.one = true ->
  exists (i : nat) (name : string),
    Number.to_index (celeb_index r) = Some i /\
    (i < List.length deadCelebs)%nat /\
    nth_error deadCelebs i = Some name /\
    getRandomCeleb r = Some name /\
    In name deadCelebs.
Proof.
  intros Hv H0 H1.
  destruct (celeb_index_range r Hv H0 H1) as (i & Hi & Hidx).
  destruct (pool_nth i Hi) as (name & Hn & Hin).
  exists i, name. repeat split; auto.
  unfold getRandomCeleb, array_get. rewrite Hidx. exact Hn.
Qed.

Lemma C10_witness :
  exists (i : nat) (name : string),
    Number.to_index (celeb_index quarter) = Some i /\
    (i < List.length deadCelebs)%nat /\
    nth_error deadCelebs i = Some name /\
    getRandomCeleb quarter = Some name /\
    In name deadCelebs.
Proof. apply (C10_persona_index_valid quarter); reflexivity. Defined.

End AnalyzeFacts.

(* ================================================================== *)
(** ** Properties of POST /save *)
(* ================================================================== *)

Module SaveFacts.

Import Save Samples.
Local Open Scope string_scope.

(** The handler once the three nutrient values have passed the check. *)
Lemma save_checked (w : world) (req_body : list (string * value)) :
  truthy (lookup "cal" req_body) = true ->
  truthy (lookup "sugar" req_body) = true ->
  truthy (lookup "carbs" req_body) = true ->
  save w (VObj req_body) =
    let rows :=
      [ new_row (lookup "cal" req_body) (lookup "carbs" req_body)
          (lookup "sugar" req_body) (lookup "userId" req_body)
          (lookup "foodName" req_body) ] in
    {| sent :=
         match insert w rows with
         | Resolved r =>
             if truthy (error r) then failure (error r)
             else Some (status_json 200 (saved_body (data r)))
         | Rejected err => failure err
         end;
       calls := [Insert rows] |}.
Proof.
  intros Hc Hs Hb. unfold save, read. cbn [get]. rewrite Hc, Hs, Hb.
  reflexivity.
Qed.

(** C5, as the specification states it, fails: a payload with truthy
    [cal], [sugar] and [carbs] and no [userId] is handed to the store,
    with [user_id] undefined. *)
Lemma C5_counterexample :
  lookup "userId" anonymous_body = VUndefined /\
  truthy (lookup "cal" anonymous_body) = true /\
  truthy (lookup "sugar" anonymous_body) = true /\
  truthy (lookup "carbs" anonymous_body) = true /\
  calls (save (store_world (stored VNull) (found [])) (VObj anonymous_body))
    = [ Insert [ VObj [ ("calories", VNum (Number.of_Z 250));
                        ("carbs", VNum (Number.of_Z 30));
                        ("sugar", VNum (Number.of_Z 10));
                        ("user_id", VUndefined);
                        ("food_name", VUndefined) ] ] ] /\
  calls (save (store_world (stored VNull) (found [])) (VObj anonymous_body)) <> [].
Proof. repeat split; try reflexivity. discriminate. Qed.

(** C5, amended.  Before the insert the handler checks only that [cal],
    [sugar] and [carbs] are truthy.  When they are, exactly one row is
    handed to the store, whose [user_id] is the [userId] of the payload
    as it is, [undefined] when the payload has none. *)
Theorem C5_insert_without_user_check (w : world)
    (req_body : list (string * value)) :
  truthy (lookup "cal" req_body) = true ->
  truthy (lookup "sugar" req_body) = true ->
  truthy (lookup "carbs" req_body) = true ->
  calls (save w (VObj req_body))
    = [ Insert [ VObj [ ("calories", lookup "cal" req_body);
                        ("carbs", lookup "carbs" req_body);
                        ("sugar", lookup "sugar" req_body);
                        ("user_id", lookup "userId" req_body);
                        ("food_name", lookup "foodName" req_body) ] ] ].
Proof.
  intros Hc Hs Hb. rewrite (save_checked w req_body Hc Hs Hb). reflexivity.
Qed.

Lemma C5_witness :
  calls (save (store_world (stored VNull) (found [])) (VObj anonymous_body))
    = [ Insert [ VObj [ ("calories", lookup "cal" anonymous_body);
                        ("carbs", lookup "carbs" anonymous_body);
                        ("sugar", lookup "sugar" anonymous_body);
                        ("user_id", lookup "userId" anonymous_body);
                        ("food_name", lookup "foodName" anonymous_body) ] ] ].
Proof.
  apply (C5_insert_without_user_check
           (store_world (stored VNull) (found [])) anonymous_body);
    reflexivity.
Defined.




(** C7.  When [cal], [sugar] and [carbs] are truthy and the insert
    succeeds, the answer is 200 with [success: true], the message
    "saved successfully!" and the data the store returned, and the row
    handed to the store has [calories = cal], [carbs = carbs],
    [sugar = sugar], [user_id = userId] and [food_name = foodName]. *)
Theorem C7_saved_entry_equals_input (w : world)
    (req_body : list (string * value)) (r : reply value) :
  truthy (lookup "cal" req_body) = true ->
  truthy (lookup "sugar" req_body) = true ->
  truthy (lookup "carbs" req_body) = true ->
  insert w [ new_row (lookup "cal" req_body) (lookup "carbs" req_body)
               (lookup "sugar" req_body) (lookup "userId" req_body)
               (lookup "foodName" req_body) ] = Resolved r ->
  truthy (error r) = false ->
  exists row,
    save w (VObj req_body)
      = {| sent := Some {| status := 200;
                           body := VObj [ ("success", VBool true);
                                          ("message", VStr "saved successfully!");
                                          ("data", data r) ] |};
           calls := [Insert [row]] |} /\
    get row "calories" = Some (lookup "cal" req_body) /\
    get row "carbs" = Some (lookup "carbs" req_body) /\
    get row "sugar" = Some (lookup "sugar" req_body) /\
    get row "user_id" = Some (lookup "userId" req_body) /\
    get row "food_name" = Some (lookup "foodName" req_body).
Proof.
  intros Hc Hs Hb Hins Herr.
  eexists. rewrite (save_checked w req_body Hc Hs Hb). cbv zeta.
  rewrite Hins, Herr. repeat split.
Qed.

Lemma C7_witness :
  exists row,
    save (store_world (stored (VArr [])) (found [])) (VObj apple_body)
      = {| sent := Some {| status := 200;
                           body := VObj [ ("success", VBool true);
                                          ("message", VStr "saved successfully!");
                                          ("data", VArr []) ] |};
           calls := [Insert [row]] |} /\
    get row "calories" = Some (VNum (Number.of_Z 250)) /\
    get row "carbs" = Some (VNum (Number.of_Z 30)) /\
    get row "sugar" = Some (VNum (Number.of_Z 10)) /\
    get row "user_id" = Some (VStr "u1") /\
    get row "food_name" = Some (VStr "Apple").
Proof.
  apply (C7_saved_entry_equals_input
           (store_world (stored (VArr [])) (found [])) apple_body
           {| data := VArr []; error := VNull |}); reflexivity.
Defined.

End SaveFacts.

(* ================================================================== *)
(** ** Properties of GET /getFoodLogs *)
(* ================================================================== *)

Module FoodLogsFacts.

Import Rounding NumberFacts FoodLogs Samples.
Local Open Scope string_scope.

(** *** The handler *)

(** C4.  When the day-bounded query of a request with a [userId]
    fails, the handler returns after logging: no response is sent,
    neither a 500 nor any other. *)
Theorem C4_store_failure_unanswered (w : world) (userId : value)
    (r : reply (option (list FoodLogEntry))) :
  truthy userId = true ->
  select w {| q_user := userId; q_from := day_start w;
              q_until := day_end w |} = Resolved r ->
  truthy (error r) = true ->
  sent (getFoodLogs w userId) = None.
Proof.
  intros Hu Hsel Herr. unfold getFoodLogs, todays_query.
  rewrite Hu. cbn [negb sent]. rewrite Hsel, Herr. reflexivity.
Qed.

Lemma C4_witness :
  sent (getFoodLogs
          (store_world (stored VNull) (not_found (store_error "timeout")))
          (VStr "u1")) = None.
Proof.
  apply (C4_store_failure_unanswered
           (store_world (stored VNull) (not_found (store_error "timeout")))
           (VStr "u1")
           {| data := None; error := store_error "timeout" |});
    reflexivity.
Defined.

(** *** The totals, column by column *)

(** The fold over the rows treats the three columns independently. *)
Lemma fold_step_columns (entries : list FoodLogEntry) (acc : DailyTotals) :
  fold_left step entries acc =
    {| totalCalories :=
         fold_left (fun a e => Number.add a (or_zero (calories e))) entries
           (totalCalories acc);
       totalCarbs :=
         fold_left (fun a e => Number.add a (or_zero (carbs e))) entries
           (totalCarbs acc);
       totalSugar :=
         fold_left (fun a e => Number.add a (or_zero (sugar e))) entries
           (totalSugar acc) |}.
Proof.
  revert acc. induction entries as [|e entries IH]; intros acc.
  - destruct acc; reflexivity.
  - cbn [fold_left]. rewrite IH. reflexivity.
Qed.

Lemma or_zero_wf (f : field) : field_ok f = true -> wf (or_zero f).
Proof.
  destruct f as [| |n]; cbn; auto. unfold json_number.
  intros H. apply andb_true_iff in H as [Hv _].
  destruct (Number.truthy n); [apply valid_wf; exact Hv | exact I].
Qed.

Lemma or_zero_not_neg_zero (f : field) : or_zero f <> S754_zero true.
Proof.
  destruct f as [| |n]; cbn; try discriminate.
  destruct n as [s | s | | s m e]; cbn; discriminate.
Qed.

(** Adding [f || 0] or the number [f] holds gives the same sum, unless
    the running total is the negative zero. *)
Lemma add_or_zero (a : number) (f : field) :
  a <> S754_zero true -> field_ok f = true ->
  Number.add a (or_zero f) = Number.add a (counted f).
Proof.
  intros Ha Hf. destruct f as [| |n]; try reflexivity.
  destruct n as [s | s | | s m e]; try reflexivity.
  - destruct s; [|reflexivity].
    destruct a as [[|] | [|] | | sa ma ea]; try reflexivity. contradiction.
  - discriminate.
Qed.

Lemma column_fold (col : FoodLogEntry -> field)
    (entries : list FoodLogEntry) (a : number) :
  Forall (fun e => field_ok (col e) = true) entries ->
  wf a -> a <> S754_zero true ->
  fold_left (fun a e => Number.add a (or_zero (col e))) entries a
  = fold_left (fun a e => Number.add a (counted (col e))) entries a.
Proof.
  intros Hok. revert a.
  induction Hok as [|e entries He Hrest IH]; intros a Hwf Hnz; [reflexivity|].
  cbn [fold_left]. rewrite <- (add_or_zero a (col e) Hnz He).
  apply IH.
  - apply add_wf; [exact Hwf | apply or_zero_wf; exact He].
  - intros Hz. apply add_neg_zero in Hz as [_ Hz];
      [| exact Hwf | apply or_zero_wf; exact He].
    exact (or_zero_not_neg_zero (col e) Hz).
Qed.

Lemma entries_ok_columns (entries : list FoodLogEntry) :
  Forall (fun e => entry_ok e = true) entries ->
  Forall (fun e => field_ok (calories e) = true) entries /\
  Forall (fun e => field_ok (carbs e) = true) entries /\
  Forall (fun e => field_ok (sugar e) = true) entries.
Proof.
  intros H. repeat split; eapply Forall_impl; try exact H;
    intros e He; unfold entry_ok in He;
    apply andb_true_iff in He as [He Hs];
    apply andb_true_iff in He as [Hc Hb]; assumption.
Qed.

(** C8.  For rows whose numeric columns are missing, [null] or numbers
    a JSON document can carry, the three totals are the sums of the
    corresponding columns, a missing or [null] column counting as 0; the
    totals of no rows at all are 0, 0 and 0. *)
Theorem C8_totals_are_column_sums (entries : list FoodLogEntry) :
  Forall (fun e => entry_ok e = true) entries ->
  reduce entries
    = {| totalCalories := column_sum calories entries;
         totalCarbs := column_sum carbs entries;
         totalSugar := column_sum sugar entries |} /\
  reduce []
    = {| totalCalories := Number.zero; totalCarbs := Number.zero;
         totalSugar := Number.zero |}.
Proof.
  intros Hok. split; [|reflexivity].
  destruct (entries_ok_columns entries Hok) as (Hc & Hb & Hs).
  unfold reduce, column_sum. rewrite fold_step_columns. cbn [init totalCalories totalCarbs totalSugar].
  rewrite !column_fold; auto; try exact I; discriminate.
Qed.

Lemma C8_witness :
  reduce [entry (Num (Number.of_Z 100)) Null (Num (Number.of_Z 5));
          entry (Num (Number.of_Z 200)) (Num (Number.of_Z 20)) Missing]
    = {| totalCalories := Number.of_Z 300;
         totalCarbs := Number.of_Z 20;
         totalSugar := Number.of_Z 5 |} /\
  reduce []
    = {| totalCalories := Number.zero; totalCarbs := Number.zero;
         totalSugar := Number.zero |}.
Proof.
  apply (C8_totals_are_column_sums
           [entry (Num (Number.of_Z 100)) Null (Num (Number.of_Z 5));
            entry (Num (Number.of_Z 200)) (Num (Number.of_Z 20)) Missing]).
  repeat constructor.
Defined.

(** *** Rows that hold integers *)

Lemma count_of_nonneg (f : field) : 0 <= count_of f.
Proof.
  destruct f as [| |n]; cbn; try lia.
  destruct n as [s | s | | [|] m e]; try lia.
  apply Z.shiftl_nonneg. lia.
Qed.

Lemma or_zero_count (f : field) :
  is_count f -> or_zero f = Number.of_Z (count_of f).
Proof.
  destruct f as [| |n]; try reflexivity. cbn [is_count or_zero].
  intros Hn. destruct n as [s | s | | s m e]; cbn [Number.truthy];
    try exact Hn; rewrite Hn; reflexivity.
Qed.

Lemma count_fold (col : FoodLogEntry -> field)
    (entries : list FoodLogEntry) (a : Z) :
  Forall (fun e => is_count (col e)) entries ->
  0 <= a -> a + column_count col entries <= 2 ^ 53 ->
  fold_left (fun a e => Number.add a (or_zero (col e))) entries (Number.of_Z a)
  = Number.of_Z (a + column_count col entries).
Proof.
  intros Hok. revert a.
  induction Hok as [|e entries He Hrest IH]; intros a Ha Hsum.
  - cbn. rewrite Z.add_0_r. reflexivity.
  - cbn [fold_left column_count fold_right] in *.
    fold (column_count col entries) in *.
    pose proof (count_of_nonneg (col e)) as Hc.
    assert (Hrestpos : 0 <= column_count col entries).
    { clear. induction entries as [|x xs IHx]; cbn; [lia|].
      pose proof (count_of_nonneg (col x)). fold (column_count col xs). lia. }
    rewrite (or_zero_count (col e) He), add_of_Z by lia.
    rewrite IH by lia. f_equal. lia.
Qed.

Lemma column_count_nonneg (col : FoodLogEntry -> field)
    (entries : list FoodLogEntry) : 0 <= column_count col entries.
Proof.
  induction entries as [|x xs IH]; cbn; [lia|].
  pose proof (count_of_nonneg (col x)). fold (column_count col xs). lia.
Qed.

Lemma count_entries_columns (entries : list FoodLogEntry) :
  Forall count_entry entries ->
  Forall (fun e => is_count (calories e)) entries /\
  Forall (fun e => is_count (carbs e)) entries /\
  Forall (fun e => is_count (sugar e)) entries.
Proof.
  intros H. repeat split; eapply Forall_impl; try exact H;
    intros e (Hc & Hb & Hs); assumption.
Qed.

(** On rows that hold non-negative integers, with column totals of at
    most 2^53, the totals are the exact integer sums. *)
Lemma reduce_counts (entries : list FoodLogEntry) :
  Forall count_entry entries ->
  column_count calories entries <= 2 ^ 53 ->
  column_count carbs entries <= 2 ^ 53 ->
  column_count sugar entries <= 2 ^ 53 ->
  reduce entries
    = {| totalCalories := Number.of_Z (column_count calories entries);
         totalCarbs := Number.of_Z (column_count carbs entries);
         totalSugar := Number.of_Z (column_count sugar entries) |}.
Proof.
  intros Hok Hc Hb Hs.
  destruct (count_entries_columns entries Hok) as (Oc & Ob & Os).
  unfold reduce. rewrite fold_step_columns.
  cbn [init totalCalories totalCarbs totalSugar].
  change Number.zero with (Number.of_Z 0).
  rewrite !count_fold by (assumption || lia). reflexivity.
Qed.

Lemma column_count_perm (col : FoodLogEntry -> field)
    (entries entries' : list FoodLogEntry) :
  Permutation entries entries' ->
  column_count col entries = column_count col entries'.
Proof.
  intros Hp. induction Hp as [| x l l' _ IH | x y l | l l' l'' _ IH1 _ IH2];
    cbn in *; try fold (column_count col l) in *;
    try fold (column_count col l') in *; lia.
Qed.

(** C9, as the specification states it, fails: the sugar of three
    snacks, 0.1, 0.2 and 0.3 grams, adds up to 0.6000000000000001 in
    that order and to 0.6 when the first snack comes last. *)
Lemma C9_counterexample :
  Permutation [snack 1; snack 2; snack 3] [snack 2; snack 3; snack 1] /\
  Forall (fun e => entry_ok e = true) [snack 1; snack 2; snack 3] /\
  totalSugar (reduce [snack 1; snack 2; snack 3])
    = S754_finite false 5404319552844596 (-53) /\
  totalSugar (reduce [snack 2; snack 3; snack 1])
    = S754_finite false 5404319552844595 (-53) /\
  reduce [snack 1; snack 2; snack 3] <> reduce [snack 2; snack 3; snack 1].
Proof.
  split; [|split; [|split; [|split]]].
  - change [snack 2; snack 3; snack 1] with ([snack 2; snack 3] ++ [snack 1])%list.
    apply Permutation_cons_append.
  - repeat constructor.
  - vm_compute. reflexivity.
  - vm_compute. reflexivity.
  - intros H. apply (f_equal totalSugar) in H. vm_compute in H. discriminate.
Qed.

(** C9, amended.  On rows whose calories, carbs and sugar are missing,
    [null] or non-negative integers, with column totals of at most
    2^53, reducing the rows and reducing any permutation of them give
    equal totals. *)
Theorem C9_order_independent_on_integers
    (entries entries' : list FoodLogEntry) :
  Permutation entries entries' ->
  Forall count_entry entries ->
  column_count calories entries <= 2 ^ 53 ->
  column_count carbs entries <= 2 ^ 53 ->
  column_count sugar entries <= 2 ^ 53 ->
  reduce entries = reduce entries'.
Proof.
  intros Hp Hok Hc Hb Hs.
  rewrite (reduce_counts entries Hok Hc Hb Hs).
  rewrite (reduce_counts entries').
  - rewrite !(column_count_perm _ entries entries' Hp). reflexivity.
  - eapply Permutation_Forall; eassumption.
  - rewrite <- (column_count_perm _ entries entries' Hp). exact Hc.
  - rewrite <- (column_count_perm _ entries entries' Hp). exact Hb.
  - rewrite <- (column_count_perm _ entries entries' Hp). exact Hs.
Qed.

Lemma C9_witness :
  reduce [int_entry 100 10 5; int_entry 200 20 0; int_entry 50 7 1]
  = reduce [int_entry 50 7 1; int_entry 100 10 5; int_entry 200 20 0].
Proof.
  apply (C9_order_independent_on_integers
           [int_entry 100 10 5; int_entry 200 20 0; int_entry 50 7 1]
           [int_entry 50 7 1; int_entry 100 10 5; int_entry 200 20 0]).
  - change [int_entry 50 7 1; int_entry 100 10 5; int_entry 200 20 0]
      with ([int_entry 50 7 1] ++ [int_entry 100 10 5; int_entry 200 20 0])%list.
    change [int_entry 100 10 5; int_entry 200 20 0; int_entry 50 7 1]
      with ([int_entry 100 10 5; int_entry 200 20 0] ++ [int_entry 50 7 1])%list.
    apply Permutation_app_comm.
  - repeat constructor.
  - vm_compute. discriminate.
  - vm_compute. discriminate.
  - vm_compute. discriminate.
Defined.

End FoodLogsFacts.

(* ================================================================== *)
(** ** Further properties of POST /analyze *)
(* ================================================================== *)

Module AnalyzeMore.

Import Rounding NumberFacts Analyze Samples AnalyzeFacts.
Local Open Scope string_scope.

(** *** Substrings and lower case *)

Lemma prefix_app (a post : string) : String.prefix a (a ++ post) = true.
Proof.
  induction a as [|c a IH]; cbn; [destruct post; reflexivity|].
  destruct (ascii_dec c c) as [_|Hne]; [exact IH | contradiction].
Qed.

Lemma prefix_inv (a s : string) :
  String.prefix a s = true -> exists post, s = a ++ post.
Proof.
  revert s. induction a as [|c a IH]; intros s H.
  - exists s. reflexivity.
  - destruct s as [|d s]; cbn in H; [discriminate|].
    destruct (ascii_dec c d) as [->|]; [|discriminate].
    destruct (IH s H) as (post & ->). exists post. reflexivity.
Qed.

Lemma includes_skip (pre s sub : string) :
  includes s sub = true -> includes (pre ++ s) sub = true.
Proof.
  intros H. induction pre as [|c pre IH]; [exact H|].
  cbn [append includes]. rewrite IH.
  destruct (String.prefix sub (String c (pre ++ s))); reflexivity.
Qed.

Lemma includes_here (sub post : string) : includes (sub ++ post) sub = true.
Proof.
  destruct (sub ++ post) eqn:E; cbn [includes];
    rewrite <- E, prefix_app; reflexivity.
Qed.

Lemma toLowerCase_app (a b : string) :
  toLowerCase (a ++ b) = toLowerCase a ++ toLowerCase b.
Proof.
  induction a as [|c a IH]; [reflexivity|]. cbn. rewrite IH. reflexivity.
Qed.

(** [s.includes(sub)] holds exactly when [sub] occurs in [s]. *)
Theorem includes_iff_occurs (s sub : string) :
  includes s sub = true <-> exists pre post, s = pre ++ sub ++ post.
Proof.
  split.
  - induction s as [|c s IH]; cbn [includes].
    + destruct (String.prefix sub "") eqn:Hp; [|discriminate].
      intros _. destruct (prefix_inv sub "" Hp) as (post & E).
      exists "", post. exact E.
    + destruct (String.prefix sub (String c s)) eqn:Hp.
      * intros _. destruct (prefix_inv sub _ Hp) as (post & E).
        exists "", post. exact E.
      * intros H. destruct (IH H) as (pre & post & ->).
        exists (String c pre), post. reflexivity.
  - intros (pre & post & ->). apply includes_skip, includes_here.
Qed.

(** *** The handler *)

(** The sentinel is found in any casing and anywhere in the fallback
    text: such a reply is answered with the fallback alone. *)
Theorem fallback_detected_in_any_casing (w : world) (file : upload)
    (responseText : string) (analysis : value) (pre mid post : string) :
  generateContent w (model_request w (getRandomCeleb (Math_random w)) file)
    = Some responseText ->
  JSON_parse w responseText = Some analysis ->
  get analysis "fallback" = Some (VStr (pre ++ mid ++ post)) ->
  toLowerCase mid = sentinel ->
  analyze w (Some file)
    = {| status := 200;
         body := VObj [("analysis",
                        VObj [("fallback", VStr (pre ++ mid ++ post))])] |}.
Proof.
  intros Hg Hp Hfb Hmid.
  rewrite (analyze_parsed w file responseText analysis Hg Hp).
  unfold resolve. rewrite Hfb.
  assert (Hne : pre ++ mid ++ post <> "").
  { destruct pre; [|discriminate]. destruct mid; [discriminate|discriminate]. }
  rewrite (truthy_string _ Hne).
  rewrite !toLowerCase_app, Hmid, includes_skip by apply includes_here.
  reflexivity.
Qed.

Lemma fallback_detected_in_any_casing_witness :
  analyze (model_world (Some "reply")
             (Some (VObj [("fallback", VStr "Sorry: NO FOOD Detected here.")])))
          (Some photo)
    = {| status := 200;
         body := VObj [("analysis",
                        VObj [("fallback",
                               VStr ("Sorry: " ++ "NO FOOD Detected" ++ " here."))])] |}.
Proof.
  apply (fallback_detected_in_any_casing
           (model_world (Some "reply")
              (Some (VObj [("fallback", VStr "Sorry: NO FOOD Detected here.")])))
           photo "reply"
           (VObj [("fallback", VStr "Sorry: NO FOOD Detected here.")])
           "Sorry: " "NO FOOD Detected" " here."); reflexivity.
Defined.

(** When the call of the model throws, the answer is 500 with the error
    "Failed to analyze image". *)
Theorem analyze_model_failure (w : world) (file : upload) :
  generateContent w (model_request w (getRandomCeleb (Math_random w)) file)
    = None ->
  analyze w (Some file)
    = {| status := 500;
         body := VObj [("error", VStr "Failed to analyze image")] |}.
Proof. intros Hg. unfold analyze. rewrite Hg. reflexivity. Qed.

Lemma analyze_model_failure_witness :
  analyze (model_world None None) (Some photo)
    = {| status := 500;
         body := VObj [("error", VStr "Failed to analyze image")] |}.
Proof. apply (analyze_model_failure (model_world None None) photo). reflexivity. Defined.

(** A reply that parses to [null], or whose [fallback] is truthy and not
    a string (a number, [true], an array, an object), makes the fallback
    test throw; the outer [catch] answers 500 "Failed to analyze image",
    not the error of an invalid format. *)
Theorem analyze_fallback_not_a_string (w : world) (file : upload)
    (responseText : string) (analysis : value) :
  generateContent w (model_request w (getRandomCeleb (Math_random w)) file)
    = Some responseText ->
  JSON_parse w responseText = Some analysis ->
  (analysis = VNull \/
   exists fb, get analysis "fallback" = Some fb /\ truthy fb = true /\
              forall s, fb <> VStr s) ->
  analyze w (Some file)
    = {| status := 500;
         body := VObj [("error", VStr "Failed to analyze image")] |}.
Proof.
  intros Hg Hp Hbad.
  rewrite (analyze_parsed w file responseText analysis Hg Hp).
  unfold resolve. destruct Hbad as [-> | (fb & -> & Ht & Hns)]; [reflexivity|].
  rewrite Ht. destruct fb; try reflexivity. exfalso. eapply Hns. reflexivity.
Qed.

Lemma analyze_fallback_not_a_string_witness :
  analyze (model_world (Some "reply") (Some (VObj [("fallback", VBool true)])))
          (Some photo)
    = {| status := 500;
         body := VObj [("error", VStr "Failed to analyze image")] |}.
Proof.
  apply (analyze_fallback_not_a_string
           (model_world (Some "reply") (Some (VObj [("fallback", VBool true)])))
           photo "reply" (VObj [("fallback", VBool true)])).
  - reflexivity.
  - reflexivity.
  - right. exists (VBool true). repeat split. discriminate.
Defined.

(** Every request is answered.  Without a file the answer is 400.  With
    a file it is one of four: 500 "Failed to analyze image", 500 "Invalid
    response format from AI", 200 with the fallback text of the parsed
    reply alone (a string that contains the sentinel), or 200 with the
    parsed reply and the persona. *)
Theorem analyze_answers (w : world) (req_file : option upload) :
  match req_file with
  | None =>
      analyze w req_file = status_json 400 (error_body "No image uploaded")
  | Some file =>
      let celebName := getRandomCeleb (Math_random w) in
      analyze w req_file = status_json 500 (error_body "Failed to analyze image") \/
      analyze w req_file
        = status_json 500 (error_body "Invalid response format from AI") \/
      (exists text analysis s,
          generateContent w (model_request w celebName file) = Some text /\
          JSON_parse w text = Some analysis /\
          get analysis "fallback" = Some (VStr s) /\
          includes (toLowerCase s) sentinel = true /\
          analyze w req_file = json (fallback_body (VStr s))) \/
      (exists text analysis,
          generateContent w (model_request w celebName file) = Some text /\
          JSON_parse w text = Some analysis /\
          analyze w req_file = json (food_body analysis celebName))
  end.
Proof.
  destruct req_file as [file|]; [|reflexivity].
  cbv zeta. unfold analyze.
  destruct (generateContent w _) as [text|] eqn:Hg; [|left; reflexivity].
  destruct (JSON_parse w text) as [analysis|] eqn:Hp; [|right; left; reflexivity].
  unfold resolve. destruct (get analysis "fallback") as [fb|] eqn:Hfb;
    [|left; reflexivity].
  destruct (truthy fb) eqn:Ht.
  - destruct fb; try (left; reflexivity).
    destruct (includes (toLowerCase s) sentinel) eqn:Hi.
    + right; right; left. exists text, analysis, s. repeat split; assumption.
    + right; right; right. exists text, analysis. repeat split; assumption.
  - right; right; right. exists text, analysis. repeat split; assumption.
Qed.

(** With a random draw in [0, 1), the [coach] of an analysis that is
    returned is one of the ten names of the pool. *)
Theorem coach_is_from_the_pool (w : world) (file : upload)
    (responseText : string) (analysis fb : value) :
  Number.valid (Math_random w) = true ->
  Number.leb Number.zero (Math_random w) = true ->
  Number.ltb (Math_random w) Number.one = true ->
  generateContent w (model_request w (getRandomCeleb (Math_random w)) file)
    = Some responseText ->
  JSON_parse w responseText = Some analysis ->
  get analysis "fallback" = Some fb ->
  truthy fb = false ->
  exists name,
    In name deadCelebs /\
    analyze w (Some file)
      = {| status := 200;
           body := VObj [("analysis", analysis); ("coach", VStr name)] |}.
Proof.
  intros Hv H0 H1 Hg Hp Hfb Hf.
  destruct (celeb_in_pool (Math_random w) Hv H0 H1) as (name & Hn & Hin).
  exists name. split; [exact Hin|].
  rewrite (analyze_parsed w file responseText analysis Hg Hp).
  unfold resolve. rewrite Hfb, Hf, Hn. reflexivity.
Qed.

Lemma coach_is_from_the_pool_witness :
  exists name,
    In name deadCelebs /\
    analyze (model_world (Some "reply") (Some partial_reply)) (Some photo)
      = {| status := 200;
           body := VObj [("analysis", partial_reply); ("coach", VStr name)] |}.
Proof.
  apply (coach_is_from_the_pool
           (model_world (Some "reply") (Some partial_reply)) photo "reply"
           partial_reply VUndefined); reflexivity.
Defined.

(** Every name of the pool can be drawn: for each there is a random
    value in [0, 1) that selects it. *)
Theorem every_persona_can_be_drawn (name : string) :
  In name deadCelebs ->
  exists r,
    Number.valid r = true /\
    Number.leb Number.zero r = true /\
    Number.ltb r Number.one = true /\
    getRandomCeleb r = Some name.
Proof.
  intros Hin. cbn in Hin.
  destruct Hin as [<- | [<- | [<- | [<- | [<- | [<- | [<- | [<- | [<- | [<- | []]]]]]]]]]].
  - exists (midpoint 0). repeat split; vm_compute; reflexivity.
  - exists (midpoint 1). repeat split; vm_compute; reflexivity.
  - exists (midpoint 2). repeat split; vm_compute; reflexivity.
  - exists (midpoint 3). repeat split; vm_compute; reflexivity.
  - exists (midpoint 4). repeat split; vm_compute; reflexivity.
  - exists (midpoint 5). repeat split; vm_compute; reflexivity.
  - exists (midpoint 6). repeat split; vm_compute; reflexivity.
  - exists (midpoint 7). repeat split; vm_compute; reflexivity.
  - exists (midpoint 8). repeat split; vm_compute; reflexivity.
  - exists (midpoint 9). repeat split; vm_compute; reflexivity.
Qed.

Lemma every_persona_can_be_drawn_witness :
  exists r,
    Number.valid r = true /\
    Number.leb Number.zero r = true /\
    Number.ltb r Number.one = true /\
    getRandomCeleb r = Some "Marie Curie".
Proof.
  apply (every_persona_can_be_drawn "Marie Curie"). cbn. auto 12.
Defined.

(** *** The request sent to the model *)

(** The schema is the same for every persona, but for the guidance of
    [coachAdvice]: every other property, and the list of required
    fields, do not depend on the persona. *)
Theorem schema_fixed_but_for_coachAdvice (c1 c2 : option string) (k : string) :
  k <> "coachAdvice" ->
  lookup k (schema_properties c1) = lookup k (schema_properties c2) /\
  get (responseSchema c1) "required" = get (responseSchema c2) "required" /\
  get (responseSchema c1) "type" = get (responseSchema c2) "type".
Proof.
  intros Hk. split; [|split; reflexivity].
  unfold schema_properties. cbn [lookup].
  repeat match goal with
         | |- context [String.eqb k ?s] =>
             destruct (String.eqb_spec k s); [try reflexivity; contradiction|]
         end.
  reflexivity.
Qed.

Lemma schema_fixed_but_for_coachAdvice_witness :
  lookup "calories" (schema_properties (Some "Cleopatra"))
    = lookup "calories" (schema_properties (Some "Bruce Lee")) /\
  get (responseSchema (Some "Cleopatra")) "required"
    = get (responseSchema (Some "Bruce Lee")) "required" /\
  get (responseSchema (Some "Cleopatra")) "type"
    = get (responseSchema (Some "Bruce Lee")) "type".
Proof.
  apply (schema_fixed_but_for_coachAdvice
           (Some "Cleopatra") (Some "Bruce Lee") "calories").
  discriminate.
Defined.

(** Every field the schema requires is described in its properties, and
    the persona is written into the request twice: at the end of the
    instruction text and at the start of the guidance of [coachAdvice]. *)
Theorem request_names_the_persona (name : string) :
  (forall k, In k required_fields ->
             lookup k (schema_properties (Some name)) <> VUndefined) /\
  (exists before, instruction (Some name) = before ++ name) /\
  (exists rest,
      lookup "coachAdvice" (schema_properties (Some name))
        = string_schema (name ++ rest)).
Proof.
  repeat split.
  - intros k Hk. cbn in Hk.
    repeat (destruct Hk as [<- | Hk]; [discriminate|]). contradiction.
  - exists (instruction (Some "")). reflexivity.
  - eexists. reflexivity.
Qed.

End AnalyzeMore.

(* ================================================================== *)
(** ** Further properties of POST /save *)
(* ================================================================== *)

Module SaveMore.

Import Save Samples SaveFacts.
Local Open Scope string_scope.

Lemma failure_of_truthy (err : value) :
  truthy err = true ->
  exists msg,
    get err "message" = Some msg /\
    failure err
      = Some {| status := 500;
                body := VObj [ ("error", if truthy msg then msg
                                         else VStr "Internal server error");
                               ("details", err) ] |}.
Proof.
  intros Ht. unfold failure.
  destruct err; try discriminate; eexists; split; reflexivity.
Qed.

(** When the store reports an error, the answer is 500: its [error] is
    the [message] of the store error, or "Internal server error" when
    that message is missing or empty, and its [details] is the store
    error itself.  The insert has been attempted once. *)
Theorem save_store_failure (w : world) (req_body : list (string * value))
    (r : reply value) :
  truthy (lookup "cal" req_body) = true ->
  truthy (lookup "sugar" req_body) = true ->
  truthy (lookup "carbs" req_body) = true ->
  insert w [ new_row (lookup "cal" req_body) (lookup "carbs" req_body)
               (lookup "sugar" req_body) (lookup "userId" req_body)
               (lookup "foodName" req_body) ] = Resolved r ->
  truthy (error r) = true ->
  exists msg,
    get (error r) "message" = Some msg /\
    save w (VObj req_body)
      = {| sent := Some {| status := 500;
                           body := VObj [ ("error",
                                           if truthy msg then msg
                                           else VStr "Internal server error");
                                          ("details", error r) ] |};
           calls := [ Insert [ new_row (lookup "cal" req_body)
                                 (lookup "carbs" req_body)
                                 (lookup "sugar" req_body)
                                 (lookup "userId" req_body)
                                 (lookup "foodName" req_body) ] ] |}.
Proof.
  intros Hc Hs Hb Hins Herr.
  destruct (failure_of_truthy (error r) Herr) as (msg & Hmsg & Hfail).
  exists msg. split; [exact Hmsg|].
  rewrite (save_checked w req_body Hc Hs Hb). cbv zeta.
  rewrite Hins, Herr, Hfail. reflexivity.
Qed.

Lemma save_store_failure_witness :
  exists msg,
    get (store_error "null value in column user_id") "message" = Some msg /\
    save (store_world
            (Resolved {| data := VNull;
                         error := store_error "null value in column user_id" |})
            (found []))
         (VObj anonymous_body)
      = {| sent := Some {| status := 500;
                           body := VObj [ ("error",
                                           if truthy msg then msg
                                           else VStr "Internal server error");
                                          ("details",
                                           store_error "null value in column user_id") ] |};
           calls := [ Insert [ new_row (lookup "cal" anonymous_body)
                                 (lookup "carbs" anonymous_body)
                                 (lookup "sugar" anonymous_body)
                                 (lookup "userId" anonymous_body)
                                 (lookup "foodName" anonymous_body) ] ] |}.
Proof.
  apply (save_store_failure
           (store_world
              (Resolved {| data := VNull;
                           error := store_error "null value in column user_id" |})
              (found []))
           anonymous_body
           {| data := VNull; error := store_error "null value in column user_id" |});
    reflexivity.
Defined.

(** Unless the store call rejects with [null] or [undefined], the handler
    answers every request, with or without a body, with status 200, 400
    or 500. *)
Theorem save_always_answers (w : world) (req_body : value) :
  (forall rows, insert w rows <> Rejected VNull /\
                insert w rows <> Rejected VUndefined) ->
  exists r,
    sent (save w req_body) = Some r /\
    (status r = 200 \/ status r = 400 \/ status r = 500).
Proof.
  intros Hrej.
  assert (Hthrown : forall b,
             exists r, failure (VObj (destructure_error w b)) = Some r /\
                       (status r = 200 \/ status r = 400 \/ status r = 500)).
  { intros b. eexists. split; [reflexivity|]. right; right; reflexivity. }
  unfold save.
  destruct req_body; try apply Hthrown;
    (destruct (negb (truthy (read _ "cal")) || negb (truthy (read _ "sugar"))
               || negb (truthy (read _ "carbs")))%bool;
     [ eexists; split; [reflexivity|]; right; left; reflexivity | ]);
    cbv zeta; cbn [sent];
    match goal with
    | |- context [insert w ?rows] =>
        destruct (Hrej rows) as [Hn Hu]; destruct (insert w rows) as [r | err]
    end;
    try (destruct (truthy (error r)) eqn:Herr;
         [ destruct (failure_of_truthy (error r) Herr) as (msg & _ & ->);
           eexists; split; [reflexivity|]; right; right; reflexivity
         | eexists; split; [reflexivity|]; left; reflexivity ]);
    unfold failure; destruct err; try congruence;
      (eexists; split; [reflexivity|]; right; right; reflexivity).
Qed.

Lemma save_always_answers_witness :
  exists r,
    sent (save (store_world (Rejected (VStr "fetch failed")) (found []))
               (VObj apple_body)) = Some r /\
    (status r = 200 \/ status r = 400 \/ status r = 500).
Proof.
  apply (save_always_answers
           (store_world (Rejected (VStr "fetch failed")) (found []))
           (VObj apple_body)).
  intros rows. split; discriminate.
Defined.

(** Only [cal], [sugar], [carbs], [userId] and [foodName] of the payload
    matter: two payloads that agree on these five keys are handled
    alike, whatever else they carry. *)
Theorem save_reads_five_keys (w : world)
    (body1 body2 : list (string * value)) :
  (forall k, In k ["cal"; "sugar"; "carbs"; "userId"; "foodName"] ->
             lookup k body1 = lookup k body2) ->
  save w (VObj body1) = save w (VObj body2).
Proof.
  intros H. unfold save, read. cbn [get].
  rewrite (H "cal"), (H "sugar"), (H "carbs"), (H "userId"), (H "foodName")
    by (cbn; auto 6).
  reflexivity.
Qed.

Lemma save_reads_five_keys_witness :
  save (store_world (stored VNull) (found []))
       (VObj (("note", VStr "lunch") :: apple_body))
  = save (store_world (stored VNull) (found [])) (VObj apple_body).
Proof.
  apply (save_reads_five_keys (store_world (stored VNull) (found []))
           (("note", VStr "lunch") :: apple_body) apple_body).
  intros k Hk. cbn in Hk.
  repeat (destruct Hk as [<- | Hk]; [reflexivity|]). contradiction.
Defined.

End SaveMore.

(* ================================================================== *)
(** ** Further facts about sums *)
(* ================================================================== *)

Module SumFacts.

Import Number Rounding NumberFacts.

Lemma add_zero_r (x : number) : x <> S754_zero true -> add x zero = x.
Proof.
  destruct x as [[|] | [|] | | s m e]; intros H; try reflexivity.
  contradiction.
Qed.

Lemma finish_nonneg (m e : Z) :
  0 <= m -> leb zero (finish false m e) = true.
Proof.
  intros Hm. unfold finish. destruct m as [|p|p]; try lia; try reflexivity.
  destruct (e <=? emax - prec); reflexivity.
Qed.

Lemma binary_round_aux_nonneg (M : positive) (E : Z) :
  leb zero (binary_round_aux prec emax false (Zpos M) E loc_Exact) = true.
Proof.
  destruct (binary_round_aux_spec false M E) as (m1 & Hm1 & _ & _ & Hres).
  cbv zeta in Hres. rewrite Hres. apply finish_nonneg.
  apply Z.div_pos; [|apply Z.pow_pos_nonneg; lia].
  assert (0 <= Zpos M / 2 ^ Z.max 0 (fexp prec emax (Zpos (digits2_pos M) + E) - E)).
  { apply Z.div_pos; [lia | apply Z.pow_pos_nonneg; lia]. }
  lia.
Qed.

(** The sum of two numbers that are not negative is not negative (and
    so is not NaN). *)
Lemma add_nonneg (x y : number) :
  leb zero x = true -> leb zero y = true -> leb zero (add x y) = true.
Proof.
  destruct x as [sx | sx | | sx mx ex], y as [sy | sy | | sy my ey];
    add_easy_cases.
  destruct sx, sy; try discriminate. intros _ _.
  unfold add, SFadd. cbv zeta. cbn [cond_Zopp].
  set (a := fst (shl_align mx ex (Z.min ex ey))).
  set (b := fst (shl_align my ey (Z.min ex ey))).
  change (Zpos a + Zpos b) with (Zpos (a + b)). cbn [binary_normalize].
  unfold binary_round.
  destruct (shl_align (a + b) (Z.min ex ey)
              (fexp prec emax (Zpos (digits2_pos (a + b)) + Z.min ex ey)))
    as [mz ez].
  apply binary_round_aux_nonneg.
Qed.

Lemma add_zero_l (x : number) : x <> S754_zero true -> add zero x = x.
Proof.
  destruct x as [[|] | [|] | | s m e]; intros H; try reflexivity.
  contradiction.
Qed.

(** Addition of numbers is commutative. *)
Lemma add_comm (x y : number) : add x y = add y x.
Proof.
  destruct x as [sx | sx | | sx mx ex], y as [sy | sy | | sy my ey];
    add_easy_cases.
  unfold add, SFadd. cbv zeta.
  rewrite (Z.min_comm ey ex).
  rewrite (Z.add_comm (cond_Zopp sy _)). reflexivity.
Qed.

End SumFacts.

(* ================================================================== *)
(** ** Further properties of GET /getFoodLogs *)
(* ================================================================== *)

Module FoodLogsMore.

Import Rounding NumberFacts SumFacts FoodLogs Samples FoodLogsFacts.
Local Open Scope string_scope.

(** *** The handler *)

(** Without a [userId] (absent, or the empty string) the answer is 400
    "no userId received!" and the store is not queried. *)
Theorem getFoodLogs_without_user (w : world) (userId : value) :
  truthy userId = false ->
  getFoodLogs w userId
    = {| sent := Some {| status := 400;
                         body := VObj [("error", VStr "no userId received!")] |};
         calls := [] |}.
Proof. intros Hu. unfold getFoodLogs. rewrite Hu. reflexivity. Qed.

Lemma getFoodLogs_without_user_witness :
  getFoodLogs (store_world (stored VNull) (found [])) (VStr "")
    = {| sent := Some {| status := 400;
                         body := VObj [("error", VStr "no userId received!")] |};
         calls := [] |}.
Proof.
  apply (getFoodLogs_without_user (store_world (stored VNull) (found []))
           (VStr "")).
  reflexivity.
Defined.

(** When the query succeeds, the answer is 200 with the rows in the
    order the store returned them and the totals of these rows, and the
    handler has made one store call: a select for the given user,
    bounded by the two strings it obtained for [start] and [end]. *)
Theorem getFoodLogs_success (w : world) (userId : value)
    (r : reply (option (list FoodLogEntry))) (rows : list FoodLogEntry) :
  truthy userId = true ->
  select w {| q_user := userId; q_from := day_start w;
              q_until := day_end w |} = Resolved r ->
  truthy (error r) = false ->
  data r = Some rows ->
  getFoodLogs w userId
    = {| sent := Some {| status := 200;
                         body := VObj [ ("data", VArr (map entry_json rows));
                                        ("totals",
                                         totals_json (reduce rows)) ] |};
         calls := [ Select {| q_user := userId; q_from := day_start w;
                              q_until := day_end w |} ] |}.
Proof.
  intros Hu Hsel Herr Hdata. unfold getFoodLogs, todays_query.
  rewrite Hu. cbn [negb]. rewrite Hsel, Herr, Hdata. reflexivity.
Qed.

Lemma getFoodLogs_success_witness :
  getFoodLogs
    (store_world (stored VNull)
       (found [int_entry 200 20 0; int_entry 100 10 5]))
    (VStr "u1")
  = {| sent :=
         Some {| status := 200;
                 body := VObj [ ("data",
                                 VArr (map entry_json
                                         [int_entry 200 20 0; int_entry 100 10 5]));
                                ("totals",
                                 totals_json
                                   (reduce [int_entry 200 20 0;
                                            int_entry 100 10 5])) ] |};
       calls := [ Select {| q_user := VStr "u1";
                            q_from := "2025-03-01T00:00:00.000Z";
                            q_until := "2025-03-02T00:00:00.000Z" |} ] |}.
Proof.
  apply (getFoodLogs_success
           (store_world (stored VNull)
              (found [int_entry 200 20 0; int_entry 100 10 5]))
           (VStr "u1")
           {| data := Some [int_entry 200 20 0; int_entry 100 10 5];
              error := VNull |}
           [int_entry 200 20 0; int_entry 100 10 5]); reflexivity.
Defined.

(** The handler ends without sending a response exactly for the requests
    with a [userId] whose query rejects, reports an error, or resolves
    without error and with [null] data. *)
Theorem getFoodLogs_unanswered_iff (w : world) (userId : value) :
  sent (getFoodLogs w userId) = None <->
  truthy userId = true /\
  match select w {| q_user := userId; q_from := day_start w;
                    q_until := day_end w |} with
  | Rejected _ => True
  | Resolved r => truthy (error r) = true \/ data r = None
  end.
Proof.
  unfold getFoodLogs, todays_query.
  destruct (truthy userId); cbn [negb sent].
  - destruct (select w _) as [r | err].
    + destruct (truthy (error r)).
      * split; auto.
      * destruct (data r) as [rows|]; split; auto;
          [discriminate | intros [_ [H|H]]; discriminate].
    + split; auto.
  - split; [discriminate | intros [H _]; discriminate].
Qed.

(** *** The totals *)

(** On rows that hold non-negative integers, with column totals of at
    most 2^53, each total is the exact integer sum of its column. *)
Theorem totals_exact_on_integers (entries : list FoodLogEntry) :
  Forall count_entry entries ->
  column_count calories entries <= 2 ^ 53 ->
  column_count carbs entries <= 2 ^ 53 ->
  column_count sugar entries <= 2 ^ 53 ->
  reduce entries
    = {| totalCalories := Number.of_Z (column_count calories entries);
         totalCarbs := Number.of_Z (column_count carbs entries);
         totalSugar := Number.of_Z (column_count sugar entries) |}.
Proof.
  intros Hok Hc Hb Hs.
  destruct (count_entries_columns entries Hok) as (Oc & Ob & Os).
  unfold reduce. rewrite fold_step_columns.
  cbn [init totalCalories totalCarbs totalSugar].
  change Number.zero with (Number.of_Z 0).
  rewrite !count_fold by (assumption || lia). reflexivity.
Qed.

Lemma totals_exact_on_integers_witness :
  reduce [int_entry 100 10 5; int_entry 200 20 0]
    = {| totalCalories := Number.of_Z 300;
         totalCarbs := Number.of_Z 30;
         totalSugar := Number.of_Z 5 |}.
Proof.
  apply (totals_exact_on_integers [int_entry 100 10 5; int_entry 200 20 0]).
  - repeat constructor.
  - vm_compute. discriminate.
  - vm_compute. discriminate.
  - vm_compute. discriminate.
Defined.

Lemma column_fold_inv (col : FoodLogEntry -> field)
    (entries : list FoodLogEntry) (a : number) :
  Forall (fun e => field_ok (col e) = true) entries ->
  wf a -> a <> S754_zero true ->
  wf (fold_left (fun a e => Number.add a (or_zero (col e))) entries a) /\
  fold_left (fun a e => Number.add a (or_zero (col e))) entries a
    <> S754_zero true.
Proof.
  intros Hok. revert a.
  induction Hok as [|e entries He Hrest IH]; intros a Hwf Hnz; [split; assumption|].
  cbn [fold_left]. apply IH.
  - apply add_wf; [exact Hwf | apply or_zero_wf; exact He].
  - intros Hz. apply add_neg_zero in Hz as [_ Hz];
      [| exact Hwf | apply or_zero_wf; exact He].
    exact (or_zero_not_neg_zero (col e) Hz).
Qed.

Lemma or_zero_blank (f : field) : blank f = true -> or_zero f = Number.zero.
Proof.
  destruct f as [| |n]; try reflexivity. cbn.
  destruct (Number.truthy n); [discriminate | reflexivity].
Qed.

(** A row whose calories, carbs and sugar are each missing, [null], zero
    or NaN changes no total, wherever it stands among the rows. *)
Theorem blank_row_changes_nothing (before after : list FoodLogEntry)
    (e : FoodLogEntry) :
  Forall (fun x => entry_ok x = true) before ->
  blank (calories e) = true ->
  blank (carbs e) = true ->
  blank (sugar e) = true ->
  reduce (before ++ e :: after) = reduce (before ++ after).
Proof.
  intros Hok Hc Hb Hs. unfold reduce. rewrite !fold_left_app.
  cbn [fold_left]. f_equal.
  destruct (entries_ok_columns before Hok) as (Oc & Ob & Os).
  rewrite fold_step_columns. cbn [init totalCalories totalCarbs totalSugar].
  unfold step. cbn [totalCalories totalCarbs totalSugar].
  rewrite (or_zero_blank _ Hc), (or_zero_blank _ Hb), (or_zero_blank _ Hs).
  rewrite !add_zero_r; [reflexivity | | |];
    apply column_fold_inv; auto; try exact I; discriminate.
Qed.

Lemma blank_row_changes_nothing_witness :
  reduce ([int_entry 100 10 5]
          ++ entry Null Missing (Num Number.zero) :: [int_entry 200 20 0])
  = reduce ([int_entry 100 10 5] ++ [int_entry 200 20 0]).
Proof.
  apply (blank_row_changes_nothing [int_entry 100 10 5] [int_entry 200 20 0]
           (entry Null Missing (Num Number.zero)));
    try reflexivity.
  repeat constructor.
Defined.

(** Two rows give the same totals in either order, whatever numbers
    they hold: the order of the rows matters from three rows on only. *)
Theorem two_rows_commute (e1 e2 : FoodLogEntry) :
  reduce [e1; e2] = reduce [e2; e1].
Proof.
  unfold reduce. cbn [fold_left]. unfold step, init.
  cbn [totalCalories totalCarbs totalSugar].
  rewrite !add_zero_l by apply or_zero_not_neg_zero.
  f_equal; apply add_comm.
Qed.

Lemma or_zero_nonneg (f : field) :
  not_negative f = true -> Number.leb Number.zero (or_zero f) = true.
Proof.
  destruct f as [| |n]; try reflexivity.
  destruct n as [s | [|] | | [|] m e]; cbn; try reflexivity; discriminate.
Qed.

Lemma column_nonneg (col : FoodLogEntry -> field)
    (entries : list FoodLogEntry) (a : number) :
  Forall (fun e => not_negative (col e) = true) entries ->
  Number.leb Number.zero a = true ->
  Number.leb Number.zero
    (fold_left (fun a e => Number.add a (or_zero (col e))) entries a) = true.
Proof.
  intros Hok. revert a.
  induction Hok as [|e entries He Hrest IH]; intros a Ha; [exact Ha|].
  cbn [fold_left]. apply IH. apply add_nonneg; [exact Ha|].
  apply or_zero_nonneg; exact He.
Qed.

(** When no column of any row is negative, no total is negative, and
    none is NaN. *)
Theorem totals_not_negative (entries : list FoodLogEntry) :
  Forall (fun e => not_negative (calories e) = true) entries ->
  Forall (fun e => not_negative (carbs e) = true) entries ->
  Forall (fun e => not_negative (sugar e) = true) entries ->
  Number.leb Number.zero (totalCalories (reduce entries)) = true /\
  Number.leb Number.zero (totalCarbs (reduce entries)) = true /\
  Number.leb Number.zero (totalSugar (reduce entries)) = true.
Proof.
  intros Hc Hb Hs. unfold reduce. rewrite fold_step_columns.
  cbn [init totalCalories totalCarbs totalSugar].
  repeat split; apply column_nonneg; auto.
Qed.

Lemma totals_not_negative_witness :
  Number.leb Number.zero (totalCalories (reduce [snack 1; snack 2; snack 3])) = true /\
  Number.leb Number.zero (totalCarbs (reduce [snack 1; snack 2; snack 3])) = true /\
  Number.leb Number.zero (totalSugar (reduce [snack 1; snack 2; snack 3])) = true.
Proof.
  apply (totals_not_negative [snack 1; snack 2; snack 3]); repeat constructor.
Defined.

End FoodLogsMore.

